(** * Verification of the target watcher ([src/watcher/watcher.go])

    A shallow embedding of the Go package [watcher]: the target matcher
    ([FirstActiveTarget] and its three strategies, with the shared helper
    [getWindowText]) and the body of the goroutine started by
    [StartEventWatcher].

    Go strings are byte sequences and are modelled as [string] (a sequence
    of 8-bit [ascii]); [uintptr] values are integers [Z] with the 64-bit
    wrap-around written out where the code does arithmetic on them.  Every
    call into user32, kernel32, psapi or go-ps is answered by a field of the
    record [OS] (a snapshot of the desktop) and is recorded in a trace of
    events, so that statements about which calls are made, and in which
    order, can be made about the code. *)

From Stdlib Require Import ZArith Ascii String List Bool Lia Permutation.
From stdpp Require Import gmap strings list fin_maps.

#[local] Open Scope string_scope.
#[local] Open Scope list_scope.
#[local] Open Scope stdpp_scope.
#[local] Open Scope Z_scope.

(** ** Results of a Go function and the trace of its calls *)

(** A Go function either returns or panics. *)
Inductive res (A : Type) : Type :=
| Ok (a : A)
| Panicked (msg : string).
Arguments Ok {A} a.
Arguments Panicked {A} msg.

(** The calls the package makes, with their arguments; [CallOpenProcess]
    also records the handle the call returned (0 when it failed). *)
Inductive event : Type :=
| CallGetForegroundWindow
| CallGetWindowTextLengthW (hwnd : Z)
| CallGetWindowTextW (hwnd nMaxCount : Z)
| CallGetWindowThreadProcessId (hwnd : Z)
| CallOpenProcess (access pid handle : Z)
| CallCloseHandle (handle : Z)
| CallGetModuleFileNameExW (handle nSize : Z)
| CallProcesses
| CallEnumWindows
| CallIsWindowVisible (hwnd : Z)
| CallSetWinEventHook (eventMin eventMax : Z)
| CallUnhookWinEvent (hook : Z)
| CallGetMessageW
| CallTranslateMessage
| CallDispatchMessageW
| LogPrintf (format : string)
| LogFatalf (format : string).

(** A computation is its result together with the calls it made, in
    order. *)
Definition M (A : Type) : Type := (res A * list event)%type.

Definition ret {A} (a : A) : M A := (Ok a, []).

Definition bind {A B} (m : M A) (f : A -> M B) : M B :=
  match m with
  | (Ok a, t) => let '(r, t') := f a in (r, t ++ t')
  | (Panicked msg, t) => (Panicked msg, t)
  end.

Definition emit (e : event) : M unit := (Ok tt, [e]).

Definition panic {A} (msg : string) : M A := (Panicked msg, []).

(** [defer_ body cleanup]: Go's [defer].  The deferred call runs when the
    body returns and also when it panics; the result is the body's. *)
Definition defer_ {A} (body : M A) (cleanup : M unit) : M A :=
  let '(r, t) := body in (r, t ++ snd cleanup).

Definition result {A} (m : M A) : res A := fst m.
Definition trace {A} (m : M A) : list event := snd m.

(** The computations form a monad; stdpp's notations [x ← m; k] and
    [m;; k] are used for sequencing. *)
#[global] Instance M_ret : MRet M := @ret.
#[global] Instance M_bind : MBind M := fun A B f m => bind m f.

(** ** Errors *)

(** A Go [error] interface value: [nil], or a [syscall.Errno].  The
    [lastErr] of [LazyProc.Call] is documented as never [nil]; the model
    does not rely on that, an [OS] may answer either. *)
Inductive error : Type :=
| nil_error
| Errno (e : Z).

Definition is_nil (e : error) : bool :=
  match e with nil_error => true | Errno _ => false end.

(** [err != nil && err.(syscall.Errno) != 0] *)
Definition errno_nonzero (e : error) : bool :=
  match e with nil_error => false | Errno n => negb (n =? 0) end.

(** ** Strings: [strings.Contains], [strings.ToLower], [windows.UTF16ToString] *)

Fixpoint HasPrefix (s prefix : string) {struct prefix} : bool :=
  match prefix with
  | EmptyString => true
  | String c prefix' =>
      match s with
      | EmptyString => false
      | String d s' => Ascii.eqb c d && HasPrefix s' prefix'
      end
  end.

(** [strings.Contains(s, substr)]: is there an index at which [substr]
    starts in [s]. *)
Fixpoint Contains (s substr : string) : bool :=
  HasPrefix s substr ||
  match s with
  | EmptyString => false
  | String _ s' => Contains s' substr
  end.

(** Contiguous substring, as a proposition. *)
Definition substring_of (k s : string) : Prop :=
  exists pre suf : string, s = pre +:+ k +:+ suf.

Fixpoint string_map (f : ascii -> ascii) (s : string) : string :=
  match s with
  | EmptyString => EmptyString
  | String c s' => String (f c) (string_map f s')
  end.

Fixpoint string_forallb (p : ascii -> bool) (s : string) : bool :=
  match s with
  | EmptyString => true
  | String c s' => p c && string_forallb p s'
  end.

Fixpoint string_existsb (p : ascii -> bool) (s : string) : bool :=
  match s with
  | EmptyString => false
  | String c s' => p c || string_existsb p s'
  end.

(** [c < utf8.RuneSelf] *)
Definition isASCII (c : ascii) : bool := (N_of_ascii c <? 128)%N.

(** ['A' <= c && c <= 'Z'] *)
Definition isUpper (c : ascii) : bool :=
  ((65 <=? N_of_ascii c) && (N_of_ascii c <=? 90))%N.

(** [c += 'a' - 'A'] for an upper-case letter. *)
Definition lowerASCII (c : ascii) : ascii :=
  if isUpper c then ascii_of_N (N_of_ascii c + 32) else c.

(** Equality of two bytes, and of two byte strings, up to the case of the
    ASCII letters, said without the lowering of the code: the bytes are the
    same, or one is a letter of 'A'..'Z' and the other the byte 32 above
    it. *)
Definition same_letter (a b : ascii) : bool :=
  let x := N_of_ascii a in
  let y := N_of_ascii b in
  ((x =? y) || ((65 <=? x) && (x <=? 90) && (y =? x + 32))
   || ((65 <=? y) && (y <=? 90) && (x =? y + 32)))%N.

Fixpoint equal_fold (s t : string) : bool :=
  match s, t with
  | EmptyString, EmptyString => true
  | String a s', String b t' => same_letter a b && equal_fold s' t'
  | _, _ => false
  end.

(** [windows.UTF16ToString]: the code units before the first NUL, decoded
    from UTF-16 and encoded as UTF-8. *)
Fixpoint untilNUL (s : list Z) : list Z :=
  match s with
  | [] => []
  | v :: s' => if v =? 0 then [] else v :: untilNUL s'
  end.

Definition isSurrogate (r : Z) : bool := (0xd800 <=? r) && (r <? 0xe000).

(** The decoding of [windows.UTF16ToString]: a surrogate pair gives one
    rune; a surrogate without its pair is kept as it is, and is then
    written in three bytes like any rune below 0x10000 (WTF-8). *)
Fixpoint utf16_Decode (s : list Z) : list Z :=
  match s with
  | [] => []
  | r :: rest =>
      if negb (isSurrogate r) then r :: utf16_Decode rest
      else
        match rest with
        | r2 :: rest' =>
            if (r <? 0xdc00) && (0xdc00 <=? r2) && (r2 <? 0xe000)
            then ((r - 0xd800) * 1024 + (r2 - 0xdc00) + 0x10000)
                   :: utf16_Decode rest'
            else r :: utf16_Decode rest
        | [] => [r]
        end
  end.

Definition byte (x : Z) : ascii := ascii_of_N (Z.to_N (x mod 256)).

(** [utf8.AppendRune] *)
Definition utf8_EncodeRune (r : Z) : list ascii :=
  if r <? 0x80 then [byte r]
  else if r <? 0x800 then
    [byte (Z.lor 0xC0 (Z.shiftr r 6)); byte (Z.lor 0x80 (Z.land r 0x3F))]
  else if r <? 0x10000 then
    [byte (Z.lor 0xE0 (Z.shiftr r 12));
     byte (Z.lor 0x80 (Z.land (Z.shiftr r 6) 0x3F));
     byte (Z.lor 0x80 (Z.land r 0x3F))]
  else
    [byte (Z.lor 0xF0 (Z.shiftr r 18));
     byte (Z.lor 0x80 (Z.land (Z.shiftr r 12) 0x3F));
     byte (Z.lor 0x80 (Z.land (Z.shiftr r 6) 0x3F));
     byte (Z.lor 0x80 (Z.land r 0x3F))].

Definition UTF16ToString (s : list Z) : string :=
  string_of_list_ascii (flat_map utf8_EncodeRune (utf16_Decode (untilNUL s))).

(** The UTF-16 code units of an ASCII string (used to write titles in
    examples). *)
Definition utf16_of_string (s : string) : list Z :=
  map (fun c => Z.of_N (N_of_ascii c)) (list_ascii_of_string s).

(** ** The operating system as seen by the matcher *)

(** [uintptr] arithmetic wraps at 64 bits. *)
Definition uintptr (x : Z) : Z := x mod 2 ^ 64.

Definition MAX_PATH : Z := 260.
Definition PROCESS_QUERY_INFORMATION : Z := 0x0400.
Definition PROCESS_VM_READ : Z := 0x0010.

(** One field per procedure the matcher calls.  A call that fills a buffer
    answers with its return value and the code units it copied.
    [GetWindowTextLengthW] returns a C [int] holding a length, which the
    last field records: the [length + 1] of [getWindowText] then never
    wraps to 0. *)
Record OS : Type := {
  GetForegroundWindow : Z;
  GetWindowTextLengthW : Z -> Z;
  GetWindowTextW : Z -> Z -> Z * list Z;
  GetWindowThreadProcessId : Z -> Z * error;
  OpenProcess : Z -> Z -> Z;
  CloseHandle : Z -> Z * error;
  GetModuleFileNameExW : Z -> Z -> Z * list Z;
  ps_Processes : list string * error;
  EnumWindows_windows : list Z;
  EnumWindows_result : Z * error;
  IsWindowVisible : Z -> Z;
  GetWindowTextLengthW_int :
    forall hwnd, 0 <= GetWindowTextLengthW hwnd < 2 ^ 31
}.

(** [make([]uint16, n)] *)
Definition make_uint16 (n : Z) : list Z := repeat 0 (Z.to_nat n).

(** What a buffer holds after a procedure copied [data] to its start; a
    procedure never writes past the size it was given. *)
Definition fill (buf data : list Z) : list Z :=
  firstn (length buf) (data ++ skipn (length data) buf).

(** [getWindowText], lines 218-229. *)
Definition getWindowText (os : OS) (hwnd : Z) : M string :=
  emit (CallGetWindowTextLengthW hwnd);;
  let length := uintptr (GetWindowTextLengthW os hwnd) in
  if length =? 0 then mret ""
  else
    let buf := make_uint16 (uintptr (length + 1)) in
    match buf with
    | [] => panic "index out of range [0] with length 0"
    | _ :: _ =>
        emit (CallGetWindowTextW hwnd (uintptr (length + 1)));;
        let '(r, data) := GetWindowTextW os hwnd (uintptr (length + 1)) in
        if r =? 0 then mret ""
        else mret (UTF16ToString (fill buf data))
    end.

(** ** The matcher *)

(** Go's [range] over a map visits the keys in an order the language
    leaves unspecified: the order is a parameter of the run, and all that is
    known of it is that every key is visited once. *)
Record MapRange : Type := {
  range_order : list string -> list string;
  range_order_perm : forall l, range_order l ≡ₚ l
}.

Section Matcher.

(** Two functions of Go's library whose tables are not part of the
    package: [strings.Map(unicode.ToLower, s)], which [strings.ToLower]
    applies to a string with a byte outside ASCII, and [filepath.Base]. *)
Variable unicode_ToLower : string -> string.
Variable filepath_Base : string -> string.

(** [strings.ToLower]: an all-ASCII string is returned as it is when it
    has no upper-case letter, and with its letters lowered otherwise. *)
Definition ToLower (s : string) : string :=
  if string_forallb isASCII s then
    if string_existsb isUpper s then string_map lowerASCII s else s
  else unicode_ToLower s.

(** The loop over the keywords, written out four times in the source
    (lines 126-130, 157-161, 175-179, 195-200): the first keyword, in the
    order of the slice, that the lowered candidate contains. *)
Fixpoint matchKeyword (lower : string) (keywords : list string)
  : option string :=
  match keywords with
  | [] => None
  | keyword :: rest =>
      if Contains lower keyword then Some keyword
      else matchKeyword lower rest
  end.

(** [if title != "" { lowerTitle := ...; for ... }] *)
Definition matchTitle (title : string) (keywords : list string)
  : option string :=
  if negb (title =? "")%string then matchKeyword (ToLower title) keywords
  else None.

(** The deferred function of lines 145-150. *)
Definition closeProcessHandle (os : OS) (handle : Z) : M unit :=
  emit (CallCloseHandle handle);;
  let '(r, _) := CloseHandle os handle in
  if r =? 0
  then emit (LogPrintf "Warning: Failed to close process handle %v: %v")
  else mret tt.

(** [getForegroundTarget], lines 117-165.  [n > 0] on a [uintptr] is
    [n != 0]. *)
Definition getForegroundTarget (os : OS) (keywords : list string)
  : M (string * bool) :=
  emit CallGetForegroundWindow;;
  let hwnd := GetForegroundWindow os in
  if hwnd =? 0 then mret ("", false)
  else
    title ← getWindowText os hwnd;
    match matchTitle title keywords with
    | Some keyword => mret (keyword, true)
    | None =>
        emit (CallGetWindowThreadProcessId hwnd);;
        let '(pid, err) := GetWindowThreadProcessId os hwnd in
        if negb (is_nil err) then mret ("", false)
        else if pid =? 0 then mret ("", false)
        else
          let access := Z.lor PROCESS_QUERY_INFORMATION PROCESS_VM_READ in
          let handle := OpenProcess os access pid in
          emit (CallOpenProcess access pid handle);;
          if handle =? 0 then mret ("", false)
          else
            defer_
              (let buf := make_uint16 MAX_PATH in
               emit (CallGetModuleFileNameExW handle MAX_PATH);;
               let '(n, data) := GetModuleFileNameExW os handle MAX_PATH in
               if negb (n =? 0) then
                 let exePath := UTF16ToString (fill buf data) in
                 let lowerExeName := ToLower (filepath_Base exePath) in
                 match matchKeyword lowerExeName keywords with
                 | Some keyword => mret (keyword, true)
                 | None => mret ("", false)
                 end
               else mret ("", false))
              (closeProcessHandle os handle)
    end.

(** The loop over the processes, lines 173-180. *)
Fixpoint scanProcesses (processes : list string) (keywords : list string)
  : option string :=
  match processes with
  | [] => None
  | p :: rest =>
      match matchKeyword (ToLower p) keywords with
      | Some keyword => Some keyword
      | None => scanProcesses rest keywords
      end
  end.

(** [isProcessActive], lines 168-182. *)
Definition isProcessActive (os : OS) (keywords : list string)
  : M (string * bool) :=
  emit CallProcesses;;
  let '(processes, err) := ps_Processes os in
  if negb (is_nil err) then mret ("", false)
  else
    match scanProcesses processes keywords with
    | Some keyword => mret (keyword, true)
    | None => mret ("", false)
    end.

(** The callback of [isWindowActive], lines 187-203.  It writes the
    captured variable [foundKeyword], which the model passes in and out;
    the first component is the callback's return value (0 stops the
    enumeration). *)
Definition enumCallback (os : OS) (keywords : list string)
    (hwnd : Z) (foundKeyword : string) : M (Z * string) :=
  emit (CallIsWindowVisible hwnd);;
  if IsWindowVisible os hwnd =? 0 then mret (1, foundKeyword)
  else
    title ← getWindowText os hwnd;
    match matchTitle title keywords with
    | Some keyword => mret (0, keyword)
    | None => mret (1, foundKeyword)
    end.

(** [EnumWindows]: the system calls the callback on the top-level windows
    in its order, until the callback returns 0.  The boolean tells whether
    the callback stopped the enumeration. *)
Fixpoint EnumWindows (cb : Z -> string -> M (Z * string))
    (windows : list Z) (foundKeyword : string) : M (bool * string) :=
  match windows with
  | [] => mret (false, foundKeyword)
  | hwnd :: rest =>
      '(r, foundKeyword') ← cb hwnd foundKeyword;
      if r =? 0 then mret (true, foundKeyword')
      else EnumWindows cb rest foundKeyword'
  end.

(** [isWindowActive], lines 185-216. *)
Definition isWindowActive (os : OS) (keywords : list string)
  : M (string * bool) :=
  emit CallEnumWindows;;
  '(stopped, foundKeyword) ←
    EnumWindows (enumCallback os keywords) (EnumWindows_windows os) "";
  let '(r, err) := EnumWindows_result os in
  let ret := if stopped : bool then 0 else r in
  (if (ret =? 0) && negb (is_nil err)
   then emit (LogPrintf "Warning: EnumWindows call failed with an error: %v")
   else mret tt);;
  if negb (foundKeyword =? "")%string then mret (foundKeyword, true)
  else mret ("", false).

(** [FirstActiveTarget], lines 98-114. *)
Definition FirstActiveTarget (os : OS) (rt : MapRange)
    (targets : gmap string string) : M (string * bool) :=
  let keywords := range_order rt (map_to_list targets).*1 in
  '(name, ok) ← getForegroundTarget os keywords;
  if ok : bool then mret (name, true)
  else
    '(name, ok) ← isProcessActive os keywords;
    if ok : bool then mret (name, true)
    else
      '(name, ok) ← isWindowActive os keywords;
      if ok : bool then mret (name, true)
      else mret ("", false).

(** ** The event watcher *)

Definition eventSystemForeground : Z := 0x0003.
Definition eventObjectCreate : Z := 0x8000.
Definition eventObjectDestroy : Z := 0x8001.

(** The conversion [int32(ret)] of a [uintptr]: the low 32 bits, signed. *)
Definition int32 (x : Z) : Z :=
  let y := x mod 2 ^ 32 in if y <? 2 ^ 31 then y else y - 2 ^ 32.

(** One turn of the message pump as the system answers it: the return
    value of [GetMessageW] (0 for the quit message [WM_QUIT], -1 for an
    error, another value for any other message) and the [lastErr] of
    [TranslateMessage] and of [DispatchMessageW]. *)
Record pumped : Type := {
  GetMessageW_ret : Z;
  TranslateMessage_err : error;
  DispatchMessageW_err : error
}.

(** The system as seen by the watcher.  [pump] is the finite sequence of
    messages the queue delivers; when it is used up [GetMessageW] blocks. *)
Record WatcherOS : Type := {
  SetWinEventHook : Z -> Z -> Z * error;
  UnhookWinEvent : Z -> Z * error;
  pump : list pumped
}.

(** How the goroutine of [StartEventWatcher] stands after the messages
    were pumped: it returned (the loop was left and the deferred calls
    ran), the process was ended by [log.Fatalf], or it is still in the loop,
    blocked in [GetMessageW]. *)
Inductive standing : Type :=
| Returned
| ProcessExited
| InLoop.

(** The loop of lines 78-92.  [Some true]: left by [break];
    [Some false]: [log.Fatalf]; [None]: still looping. *)
Fixpoint messageLoop (msgs : list pumped) : option bool * list event :=
  match msgs with
  | [] => (None, [CallGetMessageW])
  | m :: rest =>
      if int32 (GetMessageW_ret m) =? -1 then (Some true, [CallGetMessageW])
      else if errno_nonzero (TranslateMessage_err m) then
        (Some false,
         [CallGetMessageW; CallTranslateMessage;
          LogFatalf "TranslateMessage failed: %v"])
      else if errno_nonzero (DispatchMessageW_err m) then
        (Some false,
         [CallGetMessageW; CallTranslateMessage; CallDispatchMessageW;
          LogFatalf "DispatchMessageW failed: %v"])
      else
        let '(r, t) := messageLoop rest in
        (r, [CallGetMessageW; CallTranslateMessage; CallDispatchMessageW]
              ++ t)
  end.

(** A deferred unhook, lines 62-67 and 68-73. *)
Definition unhook (os : WatcherOS) (hook : Z) (format : string)
  : list event :=
  CallUnhookWinEvent hook ::
  (if fst (UnhookWinEvent os hook) =? 0 then [LogPrintf format] else []).

(** The body of the goroutine of [StartEventWatcher], lines 48-92.
    [log.Fatalf] ends the process at once: the deferred calls do not run.
    The deferred calls run in the reverse order of their [defer].  The
    handler is called by the system while it delivers hook events; it has
    no part in how the goroutine ends and is left out. *)
Definition StartEventWatcher (os : WatcherOS) : standing * list event :=
  let '(hookForeground, _) :=
    SetWinEventHook os eventSystemForeground eventSystemForeground in
  let t1 := [CallSetWinEventHook eventSystemForeground eventSystemForeground] in
  if hookForeground =? 0 then
    (ProcessExited,
     t1 ++ [LogFatalf "Fatal: Could not set foreground event hook: %v"])
  else
    let '(hookCreate, _) :=
      SetWinEventHook os eventObjectCreate eventObjectDestroy in
    let t2 := t1 ++ [CallSetWinEventHook eventObjectCreate eventObjectDestroy] in
    if hookCreate =? 0 then
      (ProcessExited,
       t2 ++ [LogFatalf "Fatal: Could not set create/destroy event hook: %v"])
    else
      match messageLoop (pump os) with
      | (Some true, t) =>
          (Returned,
           t2 ++ t
           ++ unhook os hookCreate
                "Warning: Failed to unhook create/destroy event hook: %v"
           ++ unhook os hookForeground
                "Warning: Failed to unhook foreground event hook: %v")
      | (Some false, t) => (ProcessExited, t2 ++ t)
      | (None, t) => (InLoop, t2 ++ t)
      end.

(** The quit message: [GetMessageW] returns 0 for it. *)
Definition is_quit (m : pumped) : bool := GetMessageW_ret m =? 0.

(** The loop as the specification words it: it is left when the quit
    message is delivered, and every other message is translated and
    dispatched.  [Some true]: left; [None]: still looping. *)
Fixpoint spec_messageLoop (msgs : list pumped) : option bool :=
  match msgs with
  | [] => None
  | m :: rest => if is_quit m then Some true else spec_messageLoop rest
  end.

(** A message after which the loop of the source goes on. *)
Definition goes_on (m : pumped) : bool :=
  negb (int32 (GetMessageW_ret m) =? -1)
  && negb (errno_nonzero (TranslateMessage_err m))
  && negb (errno_nonzero (DispatchMessageW_err m)).

(** ** A simulated desktop *)

(** A concrete desktop from which an [OS] is built by the documented
    behaviour of the procedures; it serves to run the matcher. *)
Record Window : Type := {
  w_hwnd : Z;
  w_visible : bool;
  w_title : list Z;
  w_pid : Z
}.

Record Process : Type := {
  p_pid : Z;
  p_executable : string;
  p_path : list Z;
  p_openable : bool
}.

Record Desktop : Type := {
  d_foreground : Z;
  d_windows : list Window;
  d_processes : list Process;
  d_lastErr : error;
  d_snapshot_err : error
}.

Definition find_window (d : Desktop) (hwnd : Z) : option Window :=
  find (fun w => w_hwnd w =? hwnd) (d_windows d).

Definition find_process (d : Desktop) (pid : Z) : option Process :=
  find (fun p => p_pid p =? pid) (d_processes d).

(** A handle of the simulated desktop is the process id plus 4096. *)
Definition sim_OpenProcess (d : Desktop) (pid : Z) : Z :=
  match find_process d pid with
  | Some p => if p_openable p then pid + 4096 else 0
  | None => 0
  end.

Definition sim_TextLength (d : Desktop) (hwnd : Z) : Z :=
  match find_window d hwnd with
  | Some w => Z.min (Z.of_nat (length (untilNUL (w_title w)))) (2 ^ 31 - 1)
  | None => 0
  end.

(** A text copy: at most [n - 1] code units, then a NUL; the return value
    is the number of units copied. *)
Definition sim_copy (text : list Z) (n : Z) : Z * list Z :=
  if n <=? 0 then (0, [])
  else
    let copied := firstn (Z.to_nat (n - 1)) (untilNUL text) in
    (Z.of_nat (length copied), copied ++ [0]).

Lemma sim_TextLength_int (d : Desktop) (hwnd : Z) :
  0 <= sim_TextLength d hwnd < 2 ^ 31.
Proof.
  unfold sim_TextLength. destruct (find_window d hwnd); lia.
Qed.

Definition simulate (d : Desktop) : OS := {|
  GetForegroundWindow := d_foreground d;
  GetWindowTextLengthW := sim_TextLength d;
  GetWindowTextW := fun hwnd n =>
    match find_window d hwnd with
    | Some w => sim_copy (w_title w) n
    | None => (0, [])
    end;
  GetWindowThreadProcessId := fun hwnd =>
    match find_window d hwnd with
    | Some w => (w_pid w, d_lastErr d)
    | None => (0, d_lastErr d)
    end;
  OpenProcess := fun _ pid => sim_OpenProcess d pid;
  CloseHandle := fun _ => (1, d_lastErr d);
  GetModuleFileNameExW := fun handle n =>
    match find_process d (handle - 4096) with
    | Some p => sim_copy (p_path p) n
    | None => (0, [])
    end;
  ps_Processes :=
    if is_nil (d_snapshot_err d)
    then (map p_executable (d_processes d), nil_error)
    else ([], d_snapshot_err d);
  EnumWindows_windows := map w_hwnd (d_windows d);
  EnumWindows_result := (1, d_lastErr d);
  IsWindowVisible := fun hwnd =>
    match find_window d hwnd with
    | Some w => if w_visible w then 1 else 0
    | None => 0
    end;
  GetWindowTextLengthW_int := sim_TextLength_int d
|}.

(** The iteration orders used in the examples: the order of the key list
    and its reverse. *)
Definition range_in_order : MapRange :=
  {| range_order := fun l => l; range_order_perm := fun l => Permutation_refl l |}.

Definition range_reversed : MapRange :=
  {| range_order := @rev string;
     range_order_perm := fun l => Permutation_sym (Permutation_rev l) |}.

(** An instance of [filepath.Base] for the examples: what follows the last
    separator. *)
Fixpoint after_last_separator (acc : string) (s : string) : string :=
  match s with
  | EmptyString => acc
  | String c s' =>
      if (Ascii.eqb c "\")%char || (Ascii.eqb c "/")%char
      then after_last_separator s' s'
      else after_last_separator acc s'
  end.

Definition sample_Base (path : string) : string :=
  after_last_separator path path.

(** A stand-in for the Unicode lowering in examples whose strings are
    ASCII (the function is then never called). *)
Definition ascii_only (s : string) : string := s.

(** Example desktops. *)
Definition window (hwnd : Z) (visible : bool) (title : string) (pid : Z)
  : Window :=
  {| w_hwnd := hwnd; w_visible := visible;
     w_title := utf16_of_string title; w_pid := pid |}.

Definition process (pid : Z) (executable path : string) (openable : bool)
  : Process :=
  {| p_pid := pid; p_executable := executable;
     p_path := utf16_of_string path; p_openable := openable |}.

(** The editor in the foreground, a browser running. *)
Definition desk_editor : Desktop := {|
  d_foreground := 11;
  d_windows := [window 11 true "index.html - Visual Studio Code" 7;
                window 12 true "Spotify Premium" 8];
  d_processes := [process 7 "Code.exe" "C:\Apps\Code.exe" true;
                  process 9 "chrome.exe" "C:\Apps\chrome.exe" true];
  d_lastErr := Errno 0;
  d_snapshot_err := nil_error
|}.

(** The same desktop on a run where the [lastErr] of
    [GetWindowThreadProcessId] is [nil], with an untitled foreground
    window. *)
Definition desk_untitled : Desktop := {|
  d_foreground := 11;
  d_windows := [window 11 true "" 7];
  d_processes := [process 7 "Code.exe" "C:\Apps\Code.exe" true];
  d_lastErr := nil_error;
  d_snapshot_err := nil_error
|}.

(** No foreground window, no process snapshot, two visible windows. *)
Definition desk_background : Desktop := {|
  d_foreground := 0;
  d_windows := [window 21 true "Notepad" 5;
                window 22 true "Spotify Premium" 8];
  d_processes := [];
  d_lastErr := Errno 0;
  d_snapshot_err := Errno 5
|}.

(** The same windows with the first one in the foreground. *)
Definition desk_notepad : Desktop := {|
  d_foreground := 21;
  d_windows := [window 21 true "Notepad" 5;
                window 22 true "Spotify Premium" 8];
  d_processes := [];
  d_lastErr := Errno 0;
  d_snapshot_err := Errno 5
|}.

(** A foreground window without a title, no process snapshot. *)
Definition desk_blank : Desktop := {|
  d_foreground := 11;
  d_windows := [window 11 true "" 7];
  d_processes := [];
  d_lastErr := Errno 0;
  d_snapshot_err := Errno 5
|}.

Definition targets_default : gmap string string := {["" := "Default"]}.

(** No foreground window; a browser runs without a window, a player has a
    visible window. *)
Definition desk_idle : Desktop := {|
  d_foreground := 0;
  d_windows := [window 31 false "Hidden helper" 3;
                window 32 true "Spotify Premium" 8];
  d_processes := [process 9 "chrome.exe" "C:\Apps\chrome.exe" true;
                  process 8 "Spotify.exe" "C:\Apps\Spotify.exe" true];
  d_lastErr := Errno 0;
  d_snapshot_err := nil_error
|}.

Definition targets_music : gmap string string := {["spotify" := "Music"]}.
Definition targets_premium : gmap string string := {["premium" := "Music"]}.

Definition targets_browser_editor : gmap string string :=
  <["chrome" := "Browser"]> (<["code" := "Editor"]> ∅).

Definition targets_browser : gmap string string := {["chrome" := "Browser"]}.

Definition targets_empty_keyword : gmap string string :=
  <["" := "Default"]> (<["spotify" := "Music"]> ∅).

(** Example message pumps. *)
Definition message (ret : Z) : pumped :=
  {| GetMessageW_ret := ret;
     TranslateMessage_err := Errno 0;
     DispatchMessageW_err := Errno 0 |}.

Definition watcher_os (hookForeground hookCreate unhooked : Z)
    (msgs : list pumped) : WatcherOS :=
  {| SetWinEventHook := fun eventMin _ =>
       if eventMin =? eventSystemForeground
       then (hookForeground, Errno 0) else (hookCreate, Errno 0);
     UnhookWinEvent := fun _ => (unhooked, Errno 0);
     pump := msgs |}.

(** ** Observations on a run *)

(** The title of a window as [getWindowText] reports it, and the keys of
    the targets in the order of the run. *)
Definition windowText (os : OS) (hwnd : Z) : string :=
  match result (getWindowText os hwnd) with
  | Ok title => title
  | Panicked _ => ""
  end.

Definition keywords_of (rt : MapRange) (targets : gmap string string)
  : list string :=
  range_order rt (map_to_list targets).*1.

Fixpoint remove_handle (h : Z) (held : list Z) : list Z :=
  match held with
  | [] => []
  | h' :: rest => if h' =? h then rest else h' :: remove_handle h rest
  end.

(** The process handles that a trace leaves open: those a successful
    [OpenProcess] returned and that were not yet passed to [CloseHandle]. *)
Fixpoint open_handles (t : list event) (held : list Z) : list Z :=
  match t with
  | [] => held
  | CallOpenProcess _ _ h :: t' =>
      open_handles t' (if h =? 0 then held else h :: held)
  | CallCloseHandle h :: t' => open_handles t' (remove_handle h held)
  | _ :: t' => open_handles t' held
  end.

(** Calls that belong to the process-list and to the visible-window
    strategy. *)
Definition lower_priority_call (e : event) : bool :=
  match e with
  | CallProcesses | CallEnumWindows | CallIsWindowVisible _ => true
  | _ => false
  end.

(** The events of a trace that concern a given window. *)
Definition about_window (hwnd : Z) (e : event) : bool :=
  match e with
  | CallIsWindowVisible h | CallGetWindowTextLengthW h
  | CallGetWindowTextW h _ | CallGetWindowThreadProcessId h => h =? hwnd
  | _ => false
  end.

(** A window that the visible-window strategy stops at: visible, with a
    title that contains a keyword. *)
Definition window_hit (os : OS) (keywords : list string) (hwnd : Z)
  : option string :=
  if IsWindowVisible os hwnd =? 0 then None
  else matchTitle (windowText os hwnd) keywords.

(** The process-list strategy followed, if it found nothing, by the
    visible-window strategy. *)
Definition afterForeground (os : OS) (keywords : list string)
  : M (string * bool) :=
  '(name, ok) ← isProcessActive os keywords;
  if ok : bool then mret (name, true)
  else
    '(name, ok) ← isWindowActive os keywords;
    if ok : bool then mret (name, true)
    else mret ("", false).

(** What the executable-name step of the foreground strategy finds for an
    open process handle. *)
Definition exeMatch (os : OS) (keywords : list string) (handle : Z)
  : option string :=
  let '(n, data) := GetModuleFileNameExW os handle MAX_PATH in
  if negb (n =? 0) then
    matchKeyword
      (ToLower (filepath_Base (UTF16ToString (fill (make_uint16 MAX_PATH) data))))
      keywords
  else None.

Definition found_or_none (o : option string) : string * bool :=
  match o with
  | Some keyword => (keyword, true)
  | None => ("", false)
  end.

(** The exit paths of [getForegroundTarget], each with the value returned
    and the calls made on it. *)
Inductive foreground_path (os : OS) (keywords : list string)
  : string * bool -> list event -> Prop :=
| path_no_window :
    GetForegroundWindow os = 0 ->
    foreground_path os keywords ("", false) [CallGetForegroundWindow]
| path_title (k : string) :
    GetForegroundWindow os <> 0 ->
    matchTitle (windowText os (GetForegroundWindow os)) keywords = Some k ->
    foreground_path os keywords (k, true)
      (CallGetForegroundWindow
         :: trace (getWindowText os (GetForegroundWindow os)))
| path_no_pid :
    GetForegroundWindow os <> 0 ->
    matchTitle (windowText os (GetForegroundWindow os)) keywords = None ->
    (is_nil (snd (GetWindowThreadProcessId os (GetForegroundWindow os))) = false
     \/ fst (GetWindowThreadProcessId os (GetForegroundWindow os)) = 0) ->
    foreground_path os keywords ("", false)
      (CallGetForegroundWindow
         :: trace (getWindowText os (GetForegroundWindow os))
         ++ [CallGetWindowThreadProcessId (GetForegroundWindow os)])
| path_no_handle (pid : Z) :
    GetForegroundWindow os <> 0 ->
    matchTitle (windowText os (GetForegroundWindow os)) keywords = None ->
    GetWindowThreadProcessId os (GetForegroundWindow os) = (pid, nil_error) ->
    pid <> 0 ->
    OpenProcess os (Z.lor PROCESS_QUERY_INFORMATION PROCESS_VM_READ) pid = 0 ->
    foreground_path os keywords ("", false)
      (CallGetForegroundWindow
         :: trace (getWindowText os (GetForegroundWindow os))
         ++ [CallGetWindowThreadProcessId (GetForegroundWindow os);
             CallOpenProcess
               (Z.lor PROCESS_QUERY_INFORMATION PROCESS_VM_READ) pid 0])
| path_process (pid handle : Z) (log : list event) :
    GetForegroundWindow os <> 0 ->
    matchTitle (windowText os (GetForegroundWindow os)) keywords = None ->
    GetWindowThreadProcessId os (GetForegroundWindow os) = (pid, nil_error) ->
    pid <> 0 ->
    OpenProcess os (Z.lor PROCESS_QUERY_INFORMATION PROCESS_VM_READ) pid
    = handle ->
    handle <> 0 ->
    log = (if fst (CloseHandle os handle) =? 0
           then [LogPrintf "Warning: Failed to close process handle %v: %v"]
           else []) ->
    foreground_path os keywords (found_or_none (exeMatch os keywords handle))
      (CallGetForegroundWindow
         :: trace (getWindowText os (GetForegroundWindow os))
         ++ [CallGetWindowThreadProcessId (GetForegroundWindow os);
             CallOpenProcess
               (Z.lor PROCESS_QUERY_INFORMATION PROCESS_VM_READ) pid handle;
             CallGetModuleFileNameExW handle MAX_PATH;
             CallCloseHandle handle]
         ++ log).

(** The calls the callback of [isWindowActive] makes on one window. *)
Definition probe (os : OS) (hwnd : Z) : list event :=
  CallIsWindowVisible hwnd ::
  (if IsWindowVisible os hwnd =? 0 then []
   else trace (getWindowText os hwnd)).

(** The first hit among the windows, in the order of the enumeration, and
    the calls made up to it. *)
Fixpoint scanWindows (os : OS) (keywords : list string) (windows : list Z)
  : option string :=
  match windows with
  | [] => None
  | hwnd :: rest =>
      match window_hit os keywords hwnd with
      | Some keyword => Some keyword
      | None => scanWindows os keywords rest
      end
  end.

Fixpoint scanCalls (os : OS) (keywords : list string) (windows : list Z)
  : list event :=
  match windows with
  | [] => []
  | hwnd :: rest =>
      probe os hwnd ++
      match window_hit os keywords hwnd with
      | Some _ => []
      | None => scanCalls os keywords rest
      end
  end.

(** The warning of line 209. *)
Definition enumWarning (os : OS) (stopped : bool) : list event :=
  if ((if stopped then 0 else fst (EnumWindows_result os)) =? 0)
     && negb (is_nil (snd (EnumWindows_result os)))
  then [LogPrintf "Warning: EnumWindows call failed with an error: %v"]
  else [].

(** Calls of the executable-name step of the foreground strategy. *)
Definition process_step_call (e : event) : bool :=
  match e with
  | CallOpenProcess _ _ _ | CallGetModuleFileNameExW _ _ | CallCloseHandle _ =>
      true
  | _ => false
  end.

(** Calls that read the text of a given window. *)
Definition text_call_on (hwnd : Z) (e : event) : bool :=
  match e with
  | CallGetWindowTextLengthW h | CallGetWindowTextW h _ => h =? hwnd
  | _ => false
  end.

Definition is_unhook (e : event) : bool :=
  match e with CallUnhookWinEvent _ => true | _ => false end.

Definition is_found (o : option string) : bool :=
  match o with Some _ => true | None => false end.

(** Two runs that make the same calls and agree on whether a target was
    found; the keyword reported may differ. *)
Definition same_outcome (m m' : M (string * bool)) : Prop :=
  exists k k' ok t, m = (Ok (k, ok), t) /\ m' = (Ok (k', ok), t).

(** *** What the strategies report, said without the code

    The comparison of the specification: a keyword matches a candidate
    when it is a contiguous substring of the lowered candidate.  The
    strategies go through the keywords in the order of the slice and through
    the candidates in the order they get them. *)

(** No keyword of the list is a substring of the lowered candidate. *)
Definition no_match (keywords : list string) (lower : string) : Prop :=
  forall k, k ∈ keywords -> ~ substring_of k lower.

(** [k] is the first keyword of the list that is a substring of the
    lowered candidate. *)
Definition first_match (keywords : list string) (lower : string) (k : string)
  : Prop :=
  exists pre post,
    keywords = pre ++ k :: post /\ no_match pre lower /\ substring_of k lower.

(** A title is compared only when it is not empty. *)
Definition title_match (keywords : list string) (title k : string) : Prop :=
  title <> "" /\ first_match keywords (ToLower title) k.

Definition title_no_match (keywords : list string) (title : string) : Prop :=
  title = "" \/ no_match keywords (ToLower title).

(** The foreground strategy: the title of the foreground window, and, when
    the title gives nothing and the process of the window can be opened
    and its path read, the base name of that path. *)
Definition foreground_reports (os : OS) (keywords : list string) (k : string)
  : Prop :=
  let hwnd := GetForegroundWindow os in
  let pid_err := GetWindowThreadProcessId os hwnd in
  let handle :=
    OpenProcess os (Z.lor PROCESS_QUERY_INFORMATION PROCESS_VM_READ)
      (fst pid_err) in
  let answer := GetModuleFileNameExW os handle MAX_PATH in
  hwnd <> 0 /\
  (title_match keywords (windowText os hwnd) k
   \/ (title_no_match keywords (windowText os hwnd)
       /\ is_nil (snd pid_err) = true
       /\ fst pid_err <> 0
       /\ handle <> 0
       /\ fst answer <> 0
       /\ first_match keywords
            (ToLower (filepath_Base
               (UTF16ToString (fill (make_uint16 MAX_PATH) (snd answer)))))
            k)).

(** The process-list strategy: the first process, in the order of the
    enumeration, whose lowered name has a keyword as a substring. *)
Definition process_list_reports (os : OS) (keywords : list string)
    (k : string) : Prop :=
  is_nil (snd (ps_Processes os)) = true /\
  exists before p after,
    fst (ps_Processes os) = before ++ p :: after
    /\ (forall q, q ∈ before -> no_match keywords (ToLower q))
    /\ first_match keywords (ToLower p) k.

(** The visible-window strategy: the first window, in the order of the
    enumeration, that is visible and whose title matches. *)
Definition visible_window_reports (os : OS) (keywords : list string)
    (k : string) : Prop :=
  exists before w after,
    EnumWindows_windows os = before ++ w :: after
    /\ (forall h, h ∈ before ->
          IsWindowVisible os h = 0
          \/ title_no_match keywords (windowText os h))
    /\ IsWindowVisible os w <> 0
    /\ title_match keywords (windowText os w) k.

(** ** Properties of the string functions *)

Lemma HasPrefix_correct (s p : string) :
  HasPrefix s p = true <-> exists suf, s = p +:+ suf.
Proof.
  revert s. induction p as [|c p IH]; intros s; simpl.
  - split; [intros _; exists s; reflexivity | reflexivity].
  - destruct s as [|d s]; simpl.
    + split; [discriminate | intros [suf H]; discriminate].
    + rewrite andb_true_iff, IH. split.
      * intros [Hc [suf ->]]. apply Ascii.eqb_eq in Hc. subst d.
        exists suf. reflexivity.
      * intros [suf H]. injection H as -> ->. split.
        -- apply Ascii.eqb_refl.
        -- exists suf. reflexivity.
Qed.

Lemma Contains_correct (s k : string) :
  Contains s k = true <-> substring_of k s.
Proof.
  unfold substring_of. split.
  - induction s as [|c s IH]; simpl; rewrite orb_true_iff.
    + intros [H | H]; [|discriminate].
      apply HasPrefix_correct in H as [suf H]. exists "", suf. exact H.
    + intros [H | H].
      * apply HasPrefix_correct in H as [suf H]. exists "", suf. exact H.
      * destruct (IH H) as (pre & suf & ->). exists (String c pre), suf.
        reflexivity.
  - intros (pre & suf & ->). induction pre as [|c pre IH]; simpl.
    + assert (H : HasPrefix (k +:+ suf) k = true)
        by (apply HasPrefix_correct; exists suf; reflexivity).
      destruct (k +:+ suf); simpl in *; rewrite H; reflexivity.
    + simpl in IH. rewrite IH. apply orb_true_r.
Qed.

Lemma Contains_empty (s : string) : Contains s "" = true.
Proof. destruct s; reflexivity. Qed.

Lemma string_map_app (f : ascii -> ascii) (a b : string) :
  string_map f (a +:+ b) = string_map f a +:+ string_map f b.
Proof. induction a as [|c a IH]; simpl; [reflexivity | rewrite IH; reflexivity]. Qed.

Lemma string_map_eq_app (f : ascii -> ascii) (s a b : string) :
  string_map f s = a +:+ b ->
  exists s1 s2, s = s1 +:+ s2 /\ string_map f s1 = a /\ string_map f s2 = b.
Proof.
  revert s. induction a as [|c a IH]; intros s H; simpl in H.
  - exists "", s. auto.
  - destruct s as [|d s]; simpl in H; [discriminate|].
    injection H as Hc H. destruct (IH s H) as (s1 & s2 & -> & H1 & H2).
    exists (String d s1), s2. simpl. rewrite Hc, H1. auto.
Qed.

Lemma string_map_no_upper (s : string) :
  string_existsb isUpper s = false -> string_map lowerASCII s = s.
Proof.
  induction s as [|c s IH]; simpl; [reflexivity|].
  rewrite orb_false_iff. intros [Hc Hs]. unfold lowerASCII at 1.
  rewrite Hc, (IH Hs). reflexivity.
Qed.

Lemma ToLower_ASCII (s : string) :
  string_forallb isASCII s = true -> ToLower s = string_map lowerASCII s.
Proof.
  intros H. unfold ToLower. rewrite H.
  destruct (string_existsb isUpper s) eqn:E; [reflexivity|].
  symmetry. apply string_map_no_upper, E.
Qed.

Lemma matchKeyword_Some (lower : string) (keywords : list string) (k : string) :
  matchKeyword lower keywords = Some k ->
  k ∈ keywords /\ Contains lower k = true.
Proof.
  induction keywords as [|k0 rest IH]; simpl; [discriminate|].
  destruct (Contains lower k0) eqn:E.
  - intros [= <-]. split; [left | exact E].
  - intros H. destruct (IH H). split; [right|]; assumption.
Qed.

Lemma matchKeyword_None (lower : string) (keywords : list string) :
  matchKeyword lower keywords = None <->
  forall k, k ∈ keywords -> Contains lower k = false.
Proof.
  induction keywords as [|k0 rest IH]; simpl.
  - split; [intros _ k Hk; inversion Hk | reflexivity].
  - destruct (Contains lower k0) eqn:E.
    + split; [discriminate|]. intros H.
      rewrite (H k0) in E by left. discriminate.
    + rewrite IH. split.
      * intros H k Hk. inversion Hk; subst; [exact E | apply H; assumption].
      * intros H k Hk. apply H. right. exact Hk.
Qed.

(** When exactly one keyword of the slice is contained, it is the one
    found, wherever it stands in the slice. *)
Lemma matchKeyword_unique (lower : string) (keywords : list string) (k : string) :
  k ∈ keywords ->
  Contains lower k = true ->
  (forall k', k' ∈ keywords -> Contains lower k' = true -> k' = k) ->
  matchKeyword lower keywords = Some k.
Proof.
  intros Hin Hk Huniq.
  destruct (matchKeyword lower keywords) as [k'|] eqn:E.
  - apply matchKeyword_Some in E as [H1 H2]. f_equal. apply Huniq; assumption.
  - rewrite matchKeyword_None in E. rewrite (E k Hin) in Hk. discriminate.
Qed.

Lemma matchKeyword_nil (lower : string) : matchKeyword lower [] = None.
Proof. reflexivity. Qed.

Lemma matchTitle_Some (title : string) (keywords : list string) (k : string) :
  matchTitle title keywords = Some k ->
  title <> "" /\ k ∈ keywords /\ Contains (ToLower title) k = true.
Proof.
  unfold matchTitle. destruct (String.eqb_spec title ""); simpl; [discriminate|].
  intros H. apply matchKeyword_Some in H. tauto.
Qed.

Lemma scanProcesses_Some (processes keywords : list string) (k : string) :
  scanProcesses processes keywords = Some k ->
  k ∈ keywords /\ exists p, p ∈ processes /\ Contains (ToLower p) k = true.
Proof.
  induction processes as [|p rest IH]; simpl; [discriminate|].
  destruct (matchKeyword (ToLower p) keywords) as [k'|] eqn:E.
  - intros [= <-]. apply matchKeyword_Some in E as [H1 H2].
    split; [exact H1|]. exists p. split; [left | exact H2].
  - intros H. destruct (IH H) as [H1 (q & Hq & Hc)].
    split; [exact H1|]. exists q. split; [right|]; assumption.
Qed.

Lemma scanProcesses_None (processes keywords : list string) :
  scanProcesses processes keywords = None <->
  forall p k, p ∈ processes -> k ∈ keywords -> Contains (ToLower p) k = false.
Proof.
  induction processes as [|p rest IH]; simpl.
  - split; [intros _ q k Hq; inversion Hq | reflexivity].
  - destruct (matchKeyword (ToLower p) keywords) as [k'|] eqn:E.
    + split; [discriminate|]. intros H.
      apply matchKeyword_Some in E as [H1 H2].
      rewrite (H p k') in H2; [discriminate | left | exact H1].
    + rewrite IH. rewrite matchKeyword_None in E. split.
      * intros H q k Hq Hk. inversion Hq; subst; [apply E | apply H]; assumption.
      * intros H q k Hq Hk. apply H; [right|]; assumption.
Qed.

(** ** The text-retrieval helper *)

Ltac msimpl :=
  unfold mbind, M_bind, bind, mret, M_ret, ret, emit, panic, defer_,
    result, trace in *;
  simpl in *.

Lemma uintptr_small (x : Z) : 0 <= x < 2 ^ 32 -> uintptr x = x.
Proof. intros H. unfold uintptr. apply Z.mod_small. lia. Qed.

Lemma make_uint16_succ (n : Z) :
  0 <= n -> make_uint16 (n + 1) = 0 :: make_uint16 n.
Proof.
  intros H. unfold make_uint16.
  replace (Z.to_nat (n + 1)) with (S (Z.to_nat n)) by lia. reflexivity.
Qed.

(** [getWindowText] never panics; it asks for the length first and, when
    the length is not zero, for the text with a buffer of [length + 1]
    code units. *)
Lemma getWindowText_eq (os : OS) (hwnd : Z) :
  getWindowText os hwnd =
  let length := GetWindowTextLengthW os hwnd in
  if length =? 0 then (Ok "", [CallGetWindowTextLengthW hwnd])
  else
    (Ok (if fst (GetWindowTextW os hwnd (length + 1)) =? 0 then ""
         else UTF16ToString
                (fill (make_uint16 (length + 1))
                      (snd (GetWindowTextW os hwnd (length + 1))))),
     [CallGetWindowTextLengthW hwnd; CallGetWindowTextW hwnd (length + 1)]).
Proof.
  pose proof (GetWindowTextLengthW_int os hwnd) as Hr.
  unfold getWindowText. cbv zeta.
  rewrite (uintptr_small (GetWindowTextLengthW os hwnd)) by lia.
  destruct (GetWindowTextLengthW os hwnd =? 0) eqn:E; [reflexivity|].
  rewrite (uintptr_small (GetWindowTextLengthW os hwnd + 1)) by lia.
  rewrite make_uint16_succ by lia.
  destruct (GetWindowTextW os hwnd (GetWindowTextLengthW os hwnd + 1)) as [r data].
  msimpl. destruct (r =? 0); reflexivity.
Qed.

Lemma getWindowText_returns (os : OS) (hwnd : Z) :
  getWindowText os hwnd = (Ok (windowText os hwnd), trace (getWindowText os hwnd)).
Proof.
  unfold windowText, result, trace. rewrite getWindowText_eq. cbv zeta.
  destruct (GetWindowTextLengthW os hwnd =? 0); reflexivity.
Qed.

Lemma getWindowText_trace (os : OS) (hwnd : Z) :
  Forall (fun e => about_window hwnd e = true /\ lower_priority_call e = false
                   /\ open_handles [e] [] = [])
         (trace (getWindowText os hwnd)).
Proof.
  unfold trace. rewrite getWindowText_eq. cbv zeta.
  destruct (GetWindowTextLengthW os hwnd =? 0); simpl;
    repeat constructor; apply Z.eqb_refl.
Qed.

Lemma untilNUL_app_NUL (t rest : list Z) :
  untilNUL (untilNUL t ++ 0 :: rest) = untilNUL t.
Proof.
  induction t as [|v t IH]; simpl; [reflexivity|].
  destruct (v =? 0) eqn:E; simpl; [reflexivity|].
  rewrite E, IH. reflexivity.
Qed.

Lemma untilNUL_idem (t : list Z) : untilNUL (untilNUL t) = untilNUL t.
Proof.
  induction t as [|v t IH]; simpl; [reflexivity|].
  destruct (v =? 0) eqn:E; simpl; [reflexivity|].
  rewrite E, IH. reflexivity.
Qed.

Lemma UTF16ToString_untilNUL (t : list Z) :
  UTF16ToString (untilNUL t) = UTF16ToString t.
Proof. unfold UTF16ToString. rewrite untilNUL_idem. reflexivity. Qed.

(** A copy into a buffer that is large enough holds the whole text. *)
Lemma fill_sim_copy (text : list Z) :
  let n := Z.of_nat (length (untilNUL text)) in
  UTF16ToString (fill (make_uint16 (n + 1)) (snd (sim_copy text (n + 1))))
  = UTF16ToString text.
Proof.
  cbv zeta. unfold sim_copy.
  destruct (Z.leb_spec (Z.of_nat (length (untilNUL text)) + 1) 0); [lia|].
  cbn [snd].
  replace (Z.of_nat (length (untilNUL text)) + 1 - 1)
    with (Z.of_nat (length (untilNUL text))) by lia.
  rewrite Nat2Z.id, firstn_all.
  unfold fill, UTF16ToString.
  assert (Hl : length (make_uint16 (Z.of_nat (length (untilNUL text)) + 1))
               = length (untilNUL text ++ [0])).
  { unfold make_uint16. rewrite repeat_length, length_app. simpl. lia. }
  rewrite Hl, take_app_length, untilNUL_app_NUL. reflexivity.
Qed.

(** C6.  The text-retrieval helper [getWindowText].  For every system and
    window handle: a zero length is answered by the empty string, without
    an error and without asking for the text; otherwise the length is asked
    first and the text is then asked with a buffer of [length + 1] code
    units; a failed text call (return value 0) gives the empty string, a
    successful one the text of the buffer up to its first NUL; and on a
    desktop whose procedures behave as documented the helper returns the
    title of the window as text. *)
Theorem getWindowText_spec (os : OS) (hwnd : Z) :
  let len := GetWindowTextLengthW os hwnd in
  let answer := GetWindowTextW os hwnd (len + 1) in
  (len = 0 ->
   getWindowText os hwnd = (Ok "", [CallGetWindowTextLengthW hwnd])) /\
  (len <> 0 ->
   trace (getWindowText os hwnd)
   = [CallGetWindowTextLengthW hwnd; CallGetWindowTextW hwnd (len + 1)]) /\
  (len <> 0 -> fst answer = 0 -> result (getWindowText os hwnd) = Ok "") /\
  (len <> 0 -> fst answer <> 0 ->
   result (getWindowText os hwnd)
   = Ok (UTF16ToString (fill (make_uint16 (len + 1)) (snd answer)))) /\
  (forall (d : Desktop) (w : Window),
     os = simulate d ->
     find_window d hwnd = Some w ->
     Z.of_nat (length (untilNUL (w_title w))) < 2 ^ 31 - 1 ->
     result (getWindowText os hwnd) = Ok (UTF16ToString (w_title w))).
Proof.
  cbv zeta. rewrite getWindowText_eq. cbv zeta. unfold result, trace.
  repeat split.
  - intros ->. reflexivity.
  - intros H. apply Z.eqb_neq in H. rewrite H. reflexivity.
  - intros H H0. apply Z.eqb_neq in H. rewrite H, H0. reflexivity.
  - intros H H0. apply Z.eqb_neq in H. apply Z.eqb_neq in H0.
    rewrite H, H0. reflexivity.
  - intros d w -> Hw Hlen. cbn [simulate GetWindowTextLengthW GetWindowTextW].
    unfold sim_TextLength. rewrite Hw.
    rewrite Z.min_l by lia.
    destruct (Z.of_nat (length (untilNUL (w_title w))) =? 0) eqn:E.
    + apply Z.eqb_eq in E. cbn [fst]. f_equal. unfold UTF16ToString.
      destruct (untilNUL (w_title w)); [reflexivity | simpl in E; lia].
    + cbn [fst]. rewrite fill_sim_copy.
      assert (Hc : fst (sim_copy (w_title w)
                     (Z.of_nat (length (untilNUL (w_title w))) + 1))
                   = Z.of_nat (length (untilNUL (w_title w)))).
      { unfold sim_copy.
        destruct (Z.leb_spec (Z.of_nat (length (untilNUL (w_title w))) + 1) 0);
          [lia|].
        cbn [fst].
        replace (Z.of_nat (length (untilNUL (w_title w))) + 1 - 1)
          with (Z.of_nat (length (untilNUL (w_title w)))) by lia.
        rewrite Nat2Z.id, firstn_all. reflexivity. }
      rewrite Hc, E. reflexivity.
Qed.

(** ** The foreground strategy *)

(** Every run of [getForegroundTarget] returns, along one of its exit
    paths. *)
Lemma getForegroundTarget_path (os : OS) (keywords : list string) :
  exists r t,
    getForegroundTarget os keywords = (Ok r, t)
    /\ foreground_path os keywords r t.
Proof.
  unfold getForegroundTarget.
  destruct (GetForegroundWindow os =? 0) eqn:Ehwnd.
  { apply Z.eqb_eq in Ehwnd. eexists _, _. split; [reflexivity|].
    msimpl. apply path_no_window, Ehwnd. }
  apply Z.eqb_neq in Ehwnd.
  rewrite (getWindowText_returns os (GetForegroundWindow os)).
  remember (trace (getWindowText os (GetForegroundWindow os))) as tw eqn:Etw.
  unfold mbind, M_bind, bind at 1 2. cbn beta iota.
  destruct (matchTitle (windowText os (GetForegroundWindow os)) keywords)
    as [k|] eqn:Etitle.
  { eexists _, _. split; [msimpl; rewrite app_nil_r; reflexivity|].
    subst tw. apply path_title; assumption. }
  destruct (GetWindowThreadProcessId os (GetForegroundWindow os))
    as [pid err] eqn:Epid.
  destruct err as [|e].
  2:{ eexists _, _. split; [msimpl; reflexivity|].
      subst tw. apply path_no_pid; try assumption.
      left. rewrite Epid. reflexivity. }
  destruct (pid =? 0) eqn:Epid0.
  { apply Z.eqb_eq in Epid0. eexists _, _. split; [msimpl; rewrite Epid0; reflexivity|].
      subst tw. apply path_no_pid; try assumption.
      right. rewrite Epid. exact Epid0. }
  apply Z.eqb_neq in Epid0.
  destruct (OpenProcess os (Z.lor PROCESS_QUERY_INFORMATION PROCESS_VM_READ) pid =? 0) eqn:Eh.
  { apply Z.eqb_eq in Eh. eexists _, _. split; [msimpl; rewrite Eh; reflexivity|].
    subst tw. eapply path_no_handle; eassumption. }
  apply Z.eqb_neq in Eh.
  set (handle := OpenProcess os (Z.lor PROCESS_QUERY_INFORMATION PROCESS_VM_READ) pid) in *.
  exists (found_or_none (exeMatch os keywords handle)),
    (CallGetForegroundWindow
       :: tw
       ++ [CallGetWindowThreadProcessId (GetForegroundWindow os);
           CallOpenProcess
             (Z.lor PROCESS_QUERY_INFORMATION PROCESS_VM_READ) pid handle;
           CallGetModuleFileNameExW handle MAX_PATH;
           CallCloseHandle handle]
       ++ (if fst (CloseHandle os handle) =? 0
           then [LogPrintf "Warning: Failed to close process handle %v: %v"]
           else [])).
  split.
  2:{ subst tw. eapply path_process; try eassumption; reflexivity. }
  clear Etw. unfold exeMatch, closeProcessHandle. msimpl.
  destruct (GetModuleFileNameExW os handle MAX_PATH) as [n data].
  destruct (CloseHandle os handle) as [r0 e0]. cbn [fst].
  destruct (n =? 0); cbn [negb];
    [| destruct (matchKeyword _ keywords)];
    destruct (r0 =? 0); cbn; rewrite ?app_nil_r; reflexivity.
Qed.

Lemma open_handles_app (t1 t2 : list event) (held : list Z) :
  open_handles (t1 ++ t2) held = open_handles t2 (open_handles t1 held).
Proof.
  revert held. induction t1 as [|e t1 IH]; intros held; [reflexivity|].
  destruct e; simpl; apply IH.
Qed.

Lemma open_handles_getWindowText (os : OS) (hwnd : Z) (held : list Z) :
  open_handles (trace (getWindowText os hwnd)) held = held.
Proof.
  unfold trace. rewrite getWindowText_eq. cbv zeta.
  destruct (GetWindowTextLengthW os hwnd =? 0); reflexivity.
Qed.

Lemma remove_handle_head (h : Z) (held : list Z) :
  remove_handle h (h :: held) = held.
Proof. simpl. rewrite Z.eqb_refl. reflexivity. Qed.

(** No exit path leaves a process handle open. *)
Lemma foreground_path_handles (os : OS) (keywords : list string)
    (r : string * bool) (t : list event) (held : list Z) :
  foreground_path os keywords r t -> open_handles t held = held.
Proof.
  intros Hp. destruct Hp; cbn [open_handles];
    rewrite ?open_handles_app, ?open_handles_getWindowText; try reflexivity.
  - cbn [open_handles].
    match goal with Hh : handle <> 0 |- _ =>
      apply Z.eqb_neq in Hh; rewrite Hh end.
    rewrite remove_handle_head. subst log.
    destruct (fst (CloseHandle os handle) =? 0); reflexivity.
Qed.

Lemma foreground_path_calls (os : OS) (keywords : list string)
    (r : string * bool) (t : list event) :
  foreground_path os keywords r t ->
  Forall (fun e => lower_priority_call e = false) t.
Proof.
  assert (Hw : Forall (fun e => lower_priority_call e = false)
                 (trace (getWindowText os (GetForegroundWindow os)))).
  { eapply Forall_impl; [apply getWindowText_trace|]. cbv beta. tauto. }
  intros Hp. destruct Hp; repeat (apply Forall_cons; split; [reflexivity|]);
    rewrite ?Forall_app; repeat split; try exact Hw;
    repeat (apply Forall_cons; split; [reflexivity|]); try apply Forall_nil.
  all: try exact I.
  subst log. destruct (fst (CloseHandle os handle) =? 0); repeat constructor.
Qed.

Lemma exeMatch_Some (os : OS) (keywords : list string) (handle : Z) (k : string) :
  exeMatch os keywords handle = Some k ->
  k ∈ keywords /\
  exists data,
    Contains
      (ToLower (filepath_Base (UTF16ToString (fill (make_uint16 MAX_PATH) data))))
      k = true.
Proof.
  unfold exeMatch. destruct (GetModuleFileNameExW os handle MAX_PATH) as [n data].
  destruct (negb (n =? 0)); [|discriminate].
  intros H. apply matchKeyword_Some in H as [H1 H2]. split; [exact H1|].
  exists data. exact H2.
Qed.

(** What an exit path returns: a keyword of the slice with [true], or the
    empty string with [false]. *)
Lemma foreground_path_result (os : OS) (keywords : list string)
    (name : string) (ok : bool) (t : list event) :
  foreground_path os keywords (name, ok) t ->
  if ok then name ∈ keywords else name = "".
Proof.
  intros Hp. inversion Hp; subst; try reflexivity.
  - match goal with Ht : matchTitle _ _ = Some _ |- _ =>
      apply matchTitle_Some in Ht; tauto end.
  - match goal with Hr : found_or_none ?o = _ |- _ =>
      destruct o as [k|] eqn:E; simpl in Hr; injection Hr as <- <-;
      [|reflexivity] end.
    apply exeMatch_Some in E. tauto.
Qed.

(** ** The process-list and the visible-window strategies *)

Lemma isProcessActive_eq (os : OS) (keywords : list string) :
  isProcessActive os keywords =
  (Ok (if is_nil (snd (ps_Processes os))
       then found_or_none (scanProcesses (fst (ps_Processes os)) keywords)
       else ("", false)),
   [CallProcesses]).
Proof.
  unfold isProcessActive. destruct (ps_Processes os) as [processes err].
  cbn [fst snd]. destruct (is_nil err); cbn [negb]; [|reflexivity].
  destruct (scanProcesses processes keywords); reflexivity.
Qed.

Lemma enumCallback_eq (os : OS) (keywords : list string) (hwnd : Z)
    (found : string) :
  enumCallback os keywords hwnd found =
  (Ok (match window_hit os keywords hwnd with
       | Some keyword => (0, keyword)
       | None => (1, found)
       end),
   probe os hwnd).
Proof.
  unfold enumCallback, window_hit, probe.
  destruct (IsWindowVisible os hwnd =? 0); [reflexivity|].
  pose proof (getWindowText_returns os hwnd) as Hw.
  remember (trace (getWindowText os hwnd)) as tw eqn:Etw. clear Etw.
  rewrite Hw. msimpl.
  destruct (matchTitle (windowText os hwnd) keywords);
    cbn; rewrite app_nil_r; reflexivity.
Qed.

Lemma EnumWindows_eq (os : OS) (keywords : list string) (windows : list Z)
    (found : string) :
  EnumWindows (enumCallback os keywords) windows found =
  (Ok (match scanWindows os keywords windows with
       | Some keyword => (true, keyword)
       | None => (false, found)
       end),
   scanCalls os keywords windows).
Proof.
  induction windows as [|hwnd rest IH]; [reflexivity|].
  cbn [EnumWindows scanWindows scanCalls].
  rewrite enumCallback_eq.
  destruct (window_hit os keywords hwnd) as [k|]; msimpl.
  - reflexivity.
  - rewrite IH. reflexivity.
Qed.

Lemma isWindowActive_eq (os : OS) (keywords : list string) :
  isWindowActive os keywords =
  match scanWindows os keywords (EnumWindows_windows os) with
  | Some keyword =>
      (Ok (if (keyword =? "")%string then ("", false) else (keyword, true)),
       CallEnumWindows
         :: scanCalls os keywords (EnumWindows_windows os)
         ++ enumWarning os true)
  | None =>
      (Ok ("", false),
       CallEnumWindows
         :: scanCalls os keywords (EnumWindows_windows os)
         ++ enumWarning os false)
  end.
Proof.
  unfold isWindowActive. rewrite EnumWindows_eq. unfold enumWarning.
  destruct (EnumWindows_result os) as [r err]. cbn [fst snd].
  destruct (scanWindows os keywords (EnumWindows_windows os)) as [k|]; msimpl.
  - destruct (negb (is_nil err)); destruct (k =? "")%string;
      cbn; rewrite ?app_nil_r; reflexivity.
  - destruct ((r =? 0) && negb (is_nil err)); cbn; rewrite ?app_nil_r;
      reflexivity.
Qed.

Lemma window_hit_Some (os : OS) (keywords : list string) (hwnd : Z) (k : string) :
  window_hit os keywords hwnd = Some k ->
  IsWindowVisible os hwnd <> 0 /\ windowText os hwnd <> "" /\
  k ∈ keywords /\ Contains (ToLower (windowText os hwnd)) k = true.
Proof.
  unfold window_hit. destruct (Z.eqb_spec (IsWindowVisible os hwnd) 0);
    [discriminate|].
  intros H. apply matchTitle_Some in H. tauto.
Qed.

Lemma scanWindows_Some (os : OS) (keywords : list string) (windows : list Z)
    (k : string) :
  scanWindows os keywords windows = Some k ->
  exists hwnd, hwnd ∈ windows /\ window_hit os keywords hwnd = Some k.
Proof.
  induction windows as [|hwnd rest IH]; simpl; [discriminate|].
  destruct (window_hit os keywords hwnd) as [k'|] eqn:E.
  - intros [= <-]. exists hwnd. split; [left | exact E].
  - intros H. destruct (IH H) as (h & Hh & Hk). exists h.
    split; [right|]; assumption.
Qed.

Lemma scanWindows_None (os : OS) (keywords : list string) (windows : list Z) :
  scanWindows os keywords windows = None <->
  forall hwnd, hwnd ∈ windows -> window_hit os keywords hwnd = None.
Proof.
  induction windows as [|hwnd rest IH]; simpl.
  - split; [intros _ h Hh; inversion Hh | reflexivity].
  - destruct (window_hit os keywords hwnd) as [k'|] eqn:E.
    + split; [discriminate|]. intros H. rewrite (H hwnd) in E by left.
      discriminate.
    + rewrite IH. split.
      * intros H h Hh. inversion Hh; subst; [exact E | apply H; assumption].
      * intros H h Hh. apply H. right. exact Hh.
Qed.

(** The enumeration up to and including the first hit decides the scan:
    what follows the hit is not looked at. *)
Lemma scan_first_hit (os : OS) (keywords : list string)
    (pre post : list Z) (hwnd : Z) (k : string) :
  (forall h, h ∈ pre -> window_hit os keywords h = None) ->
  window_hit os keywords hwnd = Some k ->
  scanWindows os keywords (pre ++ hwnd :: post) = Some k /\
  scanCalls os keywords (pre ++ hwnd :: post)
  = flat_map (probe os) (pre ++ [hwnd]).
Proof.
  intros Hpre Hhit. induction pre as [|h pre IH]; simpl.
  - rewrite Hhit, !app_nil_r. split; reflexivity.
  - rewrite (Hpre h) by left.
    destruct IH as [IH1 IH2]; [intros h' Hh'; apply Hpre; right; exact Hh'|].
    rewrite IH1. simpl in IH2. rewrite IH2. split; reflexivity.
Qed.

Lemma matchTitle_nil (title : string) : matchTitle title [] = None.
Proof. unfold matchTitle. destruct (negb (title =? "")%string); reflexivity. Qed.

Lemma scanProcesses_nil (processes : list string) :
  scanProcesses processes [] = None.
Proof. induction processes; simpl; auto. Qed.

Lemma scanWindows_nil (os : OS) (windows : list Z) :
  scanWindows os [] windows = None.
Proof.
  induction windows as [|h rest IH]; simpl; [reflexivity|].
  unfold window_hit. rewrite matchTitle_nil.
  destruct (IsWindowVisible os h =? 0); exact IH.
Qed.

(** ** The fallback chain *)

Lemma keywords_of_keys (rt : MapRange) (targets : gmap string string)
    (k : string) :
  k ∈ keywords_of rt targets <-> is_Some (targets !! k).
Proof.
  unfold keywords_of. rewrite (range_order_perm rt).
  rewrite list_elem_of_fmap. split.
  - intros ([k' v] & -> & H). apply elem_of_map_to_list in H.
    exists v. exact H.
  - intros [v H]. exists (k, v). split; [reflexivity|].
    apply elem_of_map_to_list. exact H.
Qed.

Lemma keywords_of_empty (rt : MapRange) : keywords_of rt ∅ = [].
Proof.
  unfold keywords_of. rewrite map_to_list_empty. simpl.
  apply Permutation_nil. symmetry. apply range_order_perm.
Qed.

Lemma FirstActiveTarget_eq (os : OS) (rt : MapRange)
    (targets : gmap string string) :
  FirstActiveTarget os rt targets =
  ('(name, ok) ← getForegroundTarget os (keywords_of rt targets);
   if ok : bool then mret (name, true)
   else afterForeground os (keywords_of rt targets)).
Proof. reflexivity. Qed.

Lemma FirstActiveTarget_found (os : OS) (rt : MapRange)
    (targets : gmap string string) (name : string) (t : list event) :
  getForegroundTarget os (keywords_of rt targets) = (Ok (name, true), t) ->
  FirstActiveTarget os rt targets = (Ok (name, true), t).
Proof.
  intros H. rewrite FirstActiveTarget_eq, H. msimpl.
  rewrite app_nil_r. reflexivity.
Qed.

Lemma FirstActiveTarget_fallthrough (os : OS) (rt : MapRange)
    (targets : gmap string string) (name : string) :
  result (getForegroundTarget os (keywords_of rt targets)) = Ok (name, false) ->
  result (FirstActiveTarget os rt targets)
  = result (afterForeground os (keywords_of rt targets)).
Proof.
  intros H. rewrite FirstActiveTarget_eq.
  destruct (getForegroundTarget os (keywords_of rt targets)) as [r t].
  msimpl. subst r.
  destruct (afterForeground os (keywords_of rt targets)); reflexivity.
Qed.

Lemma afterForeground_eq (os : OS) (keywords : list string) :
  result (afterForeground os keywords) =
  if is_nil (snd (ps_Processes os)) then
    match scanProcesses (fst (ps_Processes os)) keywords with
    | Some keyword => Ok (keyword, true)
    | None => result (isWindowActive os keywords)
    end
  else result (isWindowActive os keywords).
Proof.
  unfold afterForeground. rewrite isProcessActive_eq, isWindowActive_eq.
  destruct (is_nil (snd (ps_Processes os)));
    [destruct (scanProcesses (fst (ps_Processes os)) keywords)|];
    try reflexivity;
    destruct (scanWindows os keywords (EnumWindows_windows os)) as [k|];
    try reflexivity; destruct (k =? "")%string; reflexivity.
Qed.

(** What the visible-window strategy returns. *)
Lemma isWindowActive_result (os : OS) (keywords : list string) :
  exists name ok,
    result (isWindowActive os keywords) = Ok (name, ok)
    /\ if ok : bool
       then exists hwnd, hwnd ∈ EnumWindows_windows os
                         /\ window_hit os keywords hwnd = Some name
       else name = "".
Proof.
  rewrite isWindowActive_eq.
  destruct (scanWindows os keywords (EnumWindows_windows os)) as [k|] eqn:E.
  - destruct (k =? "")%string.
    + exists "", false. split; reflexivity.
    + exists k, true. split; [reflexivity|]. apply scanWindows_Some, E.
  - exists "", false. split; reflexivity.
Qed.

(** What the chain returns: a keyword of the slice with [true], or the
    empty string with [false]; it never panics. *)
Lemma FirstActiveTarget_result (os : OS) (rt : MapRange)
    (targets : gmap string string) :
  exists name ok,
    result (FirstActiveTarget os rt targets) = Ok (name, ok)
    /\ if ok : bool then name ∈ keywords_of rt targets else name = "".
Proof.
  destruct (getForegroundTarget_path os (keywords_of rt targets))
    as ([name ok] & t & Heq & Hp).
  pose proof (foreground_path_result _ _ _ _ _ Hp) as Hr.
  destruct ok.
  { exists name, true. split; [|exact Hr].
    rewrite (FirstActiveTarget_found _ _ _ _ _ Heq). reflexivity. }
  rewrite (FirstActiveTarget_fallthrough os rt targets name)
    by (rewrite Heq; reflexivity).
  rewrite afterForeground_eq.
  assert (Hw : exists name ok,
             result (isWindowActive os (keywords_of rt targets)) = Ok (name, ok)
             /\ if ok : bool then name ∈ keywords_of rt targets else name = "").
  { destruct (isWindowActive_result os (keywords_of rt targets))
      as (n & o & H1 & H2).
    exists n, o. split; [exact H1|]. destruct o; [|exact H2].
    destruct H2 as (h & _ & Hh). apply window_hit_Some in Hh. tauto. }
  destruct (is_nil (snd (ps_Processes os))); [|exact Hw].
  destruct (scanProcesses (fst (ps_Processes os)) (keywords_of rt targets))
    as [k|] eqn:E; [|exact Hw].
  exists k, true. split; [reflexivity|]. apply scanProcesses_Some in E. tauto.
Qed.

(** ** The claims about the matcher *)

Lemma getWindowText_titled (os : OS) (hwnd : Z) :
  windowText os hwnd <> "" ->
  trace (getWindowText os hwnd)
  = [CallGetWindowTextLengthW hwnd;
     CallGetWindowTextW hwnd (GetWindowTextLengthW os hwnd + 1)].
Proof.
  unfold windowText, result, trace. rewrite getWindowText_eq. cbv zeta.
  destruct (GetWindowTextLengthW os hwnd =? 0); cbn [fst snd];
    [contradiction | reflexivity].
Qed.

(** C1, as amended.  Priority of the foreground window.  For every
    system, iteration order and targets: when there is a foreground window,
    its title is not empty, and exactly one registered keyword [k] is a
    substring of the lowered title, [FirstActiveTarget] returns [(k, true)]
    after three calls only (the foreground window, the length of its title,
    its title): the process list and the window enumeration are not
    consulted, whatever they would have matched. *)
Theorem foreground_title_wins (os : OS) (rt : MapRange)
    (targets : gmap string string) (k : string) :
  GetForegroundWindow os <> 0 ->
  windowText os (GetForegroundWindow os) <> "" ->
  (forall k', is_Some (targets !! k') ->
     (substring_of k' (ToLower (windowText os (GetForegroundWindow os)))
      <-> k' = k)) ->
  is_Some (targets !! k) ->
  FirstActiveTarget os rt targets =
    (Ok (k, true),
     [CallGetForegroundWindow;
      CallGetWindowTextLengthW (GetForegroundWindow os);
      CallGetWindowTextW (GetForegroundWindow os)
        (GetWindowTextLengthW os (GetForegroundWindow os) + 1)])
  /\ Forall (fun e => lower_priority_call e = false)
       (trace (FirstActiveTarget os rt targets)).
Proof.
  intros Hwnd Htitle Huniq Hk.
  assert (Hm : matchTitle (windowText os (GetForegroundWindow os))
                 (keywords_of rt targets) = Some k).
  { unfold matchTitle.
    destruct (String.eqb_spec (windowText os (GetForegroundWindow os)) "")
      as [He|_]; [contradiction|]. cbn [negb].
    apply matchKeyword_unique.
    - apply keywords_of_keys, Hk.
    - apply Contains_correct, Huniq; [exact Hk | reflexivity].
    - intros k' Hk' Hc. apply keywords_of_keys in Hk'.
      apply Contains_correct in Hc. apply (Huniq k' Hk'), Hc. }
  destruct (getForegroundTarget_path os (keywords_of rt targets))
    as (r & t & Heq & Hp).
  assert (Hrt : r = (k, true) /\
                t = CallGetForegroundWindow
                      :: trace (getWindowText os (GetForegroundWindow os))).
  { destruct Hp; try contradiction; try congruence.
    split; congruence. }
  destruct Hrt as [-> ->].
  assert (Ht : trace (getWindowText os (GetForegroundWindow os)) =
               [CallGetWindowTextLengthW (GetForegroundWindow os);
                CallGetWindowTextW (GetForegroundWindow os)
                  (GetWindowTextLengthW os (GetForegroundWindow os) + 1)]).
  { apply getWindowText_titled, Htitle. }
  rewrite Ht in Heq.
  rewrite (FirstActiveTarget_found _ _ _ _ _ Heq).
  split; [reflexivity|]. repeat constructor.
Qed.

(** C5.  Release of the process handle.  For every system and keywords,
    [getForegroundTarget] returns along one of its exit paths (no window,
    match on the title, no process id, no handle, executable name tried),
    and on each of them the trace leaves no process handle open: a handle
    that [OpenProcess] returned was passed to [CloseHandle] before the
    return. *)
Theorem process_handle_released (os : OS) (keywords : list string) :
  (exists r t, getForegroundTarget os keywords = (Ok r, t)
               /\ foreground_path os keywords r t)
  /\ (forall r t, foreground_path os keywords r t -> open_handles t [] = [])
  /\ open_handles (trace (getForegroundTarget os keywords)) [] = []
  /\ (forall access pid handle,
        CallOpenProcess access pid handle
          ∈ trace (getForegroundTarget os keywords) ->
        handle <> 0 ->
        exists before log,
          trace (getForegroundTarget os keywords)
          = before ++ CallCloseHandle handle :: log
          /\ CallOpenProcess access pid handle ∈ before
          /\ Forall (fun e => exists f, e = LogPrintf f) log).
Proof.
  destruct (getForegroundTarget_path os keywords) as (r & t & Heq & Hp).
  split; [exists r, t; split; assumption|].
  split; [intros r' t' Hp'; apply (foreground_path_handles _ _ _ _ _ Hp')|].
  split; [rewrite Heq; apply (foreground_path_handles _ _ _ _ _ Hp)|].
  rewrite Heq. unfold trace. cbn [snd].
  intros access pid handle Hin Hh.
  pose proof (getWindowText_trace os (GetForegroundWindow os)) as Hw.
  assert (Hnw : CallOpenProcess access pid handle
                  ∉ trace (getWindowText os (GetForegroundWindow os))).
  { intros Hc. rewrite Forall_forall in Hw. destruct (Hw _ Hc) as [Ha _].
    discriminate. }
  destruct Hp.
  - apply list_elem_of_singleton in Hin. discriminate.
  - apply elem_of_cons in Hin as [Hin|Hin]; [discriminate | contradiction].
  - apply elem_of_cons in Hin as [Hin|Hin]; [discriminate|].
    apply elem_of_app in Hin as [Hin|Hin]; [contradiction|].
    apply list_elem_of_singleton in Hin. discriminate.
  - apply elem_of_cons in Hin as [Hin|Hin]; [discriminate|].
    apply elem_of_app in Hin as [Hin|Hin]; [contradiction|].
    apply elem_of_cons in Hin as [Hin|Hin]; [discriminate|].
    apply list_elem_of_singleton in Hin. injection Hin as _ _ ->.
    contradiction.
  - apply elem_of_cons in Hin as [Hin|Hin]; [discriminate|].
    apply elem_of_app in Hin as [Hin|Hin]; [contradiction|].
    apply elem_of_app in Hin as [Hin|Hin].
    2:{ subst log. destruct (fst (CloseHandle os handle0) =? 0);
          [apply list_elem_of_singleton in Hin; discriminate | inversion Hin]. }
    apply elem_of_cons in Hin as [Hin|Hin]; [discriminate|].
    apply elem_of_cons in Hin as [Hin|Hin].
    2:{ apply elem_of_cons in Hin as [Hin|Hin]; [discriminate|].
        apply list_elem_of_singleton in Hin. discriminate. }
    injection Hin as -> -> ->.
    exists (CallGetForegroundWindow
              :: trace (getWindowText os (GetForegroundWindow os))
              ++ [CallGetWindowThreadProcessId (GetForegroundWindow os);
                  CallOpenProcess
                    (Z.lor PROCESS_QUERY_INFORMATION PROCESS_VM_READ) pid0 handle0;
                  CallGetModuleFileNameExW handle0 MAX_PATH]), log.
    split; [|split].
    + cbn [app]. f_equal. rewrite <- !app_assoc. reflexivity.
    + right. apply elem_of_app. right. right. left.
    + subst log. destruct (fst (CloseHandle os handle0) =? 0);
        repeat constructor. eexists. reflexivity.
Qed.

Lemma contains_false (s k : string) :
  ~ substring_of k s -> Contains s k = false.
Proof.
  intros H. destruct (Contains s k) eqn:E; [|reflexivity].
  apply Contains_correct in E. contradiction.
Qed.

(** C7.  No target.  With an empty targets mapping, whatever the system,
    [FirstActiveTarget] returns the empty string and [false]; it does so
    too when there is no foreground window, no running process has a name
    of which a registered keyword is a substring, and no visible window has
    a title of which a registered keyword is a substring. *)
Theorem no_target_not_found (os : OS) (rt : MapRange)
    (targets : gmap string string) :
  targets = ∅ \/
  (GetForegroundWindow os = 0 /\
   (forall p k, p ∈ fst (ps_Processes os) -> is_Some (targets !! k) ->
      ~ substring_of k (ToLower p)) /\
   (forall hwnd k, hwnd ∈ EnumWindows_windows os ->
      IsWindowVisible os hwnd <> 0 -> is_Some (targets !! k) ->
      ~ substring_of k (ToLower (windowText os hwnd)))) ->
  result (FirstActiveTarget os rt targets) = Ok ("", false).
Proof.
  intros [-> | (Hwnd & Hps & Hws)].
  - destruct (FirstActiveTarget_result os rt ∅) as (name & ok & Hr & Hk).
    rewrite Hr. destruct ok; [|rewrite Hk; reflexivity].
    rewrite keywords_of_empty in Hk. inversion Hk.
  - destruct (getForegroundTarget_path os (keywords_of rt targets))
      as (r & t & Heq & Hp).
    assert (Hr : r = ("", false)) by (destruct Hp; congruence).
    subst r.
    rewrite (FirstActiveTarget_fallthrough os rt targets "")
      by (rewrite Heq; reflexivity).
    rewrite afterForeground_eq.
    assert (Hs : scanProcesses (fst (ps_Processes os)) (keywords_of rt targets)
                 = None).
    { apply scanProcesses_None. intros p k Hp' Hk.
      apply keywords_of_keys in Hk. apply contains_false, Hps; assumption. }
    assert (Hw : result (isWindowActive os (keywords_of rt targets))
                 = Ok ("", false)).
    { rewrite isWindowActive_eq.
      assert (Hn : scanWindows os (keywords_of rt targets)
                     (EnumWindows_windows os) = None).
      { apply scanWindows_None. intros h Hh. unfold window_hit.
        destruct (Z.eqb_spec (IsWindowVisible os h) 0) as [|Hv];
          [reflexivity|].
        unfold matchTitle.
        destruct (negb (windowText os h =? "")%string); [|reflexivity].
        apply matchKeyword_None. intros k Hk.
        apply keywords_of_keys in Hk. apply contains_false, (Hws h k Hh Hv Hk). }
      rewrite Hn. reflexivity. }
    rewrite Hs, Hw. destruct (is_nil (snd (ps_Processes os))); reflexivity.
Qed.

(** C10.  The result is well-formed.  For every system, iteration order
    and targets, [FirstActiveTarget] returns; with [true] it returns a key
    of the targets mapping, with [false] the empty string. *)
Theorem result_well_formed (os : OS) (rt : MapRange)
    (targets : gmap string string) :
  match result (FirstActiveTarget os rt targets) with
  | Ok (k, true) => is_Some (targets !! k)
  | Ok (k, false) => k = ""
  | Panicked _ => False
  end.
Proof.
  destruct (FirstActiveTarget_result os rt targets) as (name & ok & Hr & Hk).
  rewrite Hr. destruct ok; [apply keywords_of_keys in Hk; exact Hk | exact Hk].
Qed.

Lemma windowText_empty (os : OS) (hwnd : Z) :
  GetWindowTextLengthW os hwnd = 0
  \/ fst (GetWindowTextW os hwnd (GetWindowTextLengthW os hwnd + 1)) = 0 ->
  windowText os hwnd = "".
Proof.
  unfold windowText, result. rewrite getWindowText_eq. cbv zeta.
  intros [H|H].
  - rewrite H. reflexivity.
  - destruct (GetWindowTextLengthW os hwnd =? 0); [reflexivity|].
    cbn [fst]. rewrite H. reflexivity.
Qed.

Lemma matchTitle_empty (keywords : list string) : matchTitle "" keywords = None.
Proof. reflexivity. Qed.

(** C2.  Failures are swallowed.  For every system, iteration order and
    targets: [FirstActiveTarget] returns a pair and never panics; when the
    foreground strategy meets a failure (no foreground window, or, the
    title giving no match, no process id, a failed [OpenProcess], or a
    failed [GetModuleFileNameExW]), it returns the empty string with
    [false] and the chain goes on with the process list; a window whose
    title cannot be read (zero length, or a failed text call) has the empty
    title, which matches nothing, and the enumeration goes on with the next
    window; when the enumeration of the processes fails the process-list
    strategy returns the empty string with [false] after that single call
    and the chain goes on with the visible windows. *)
Theorem failures_yield_no_match (os : OS) (rt : MapRange)
    (targets : gmap string string) :
  let keywords := keywords_of rt targets in
  let hwnd := GetForegroundWindow os in
  let pid_err := GetWindowThreadProcessId os hwnd in
  let handle :=
    OpenProcess os (Z.lor PROCESS_QUERY_INFORMATION PROCESS_VM_READ)
      (fst pid_err) in
  (exists name ok, result (FirstActiveTarget os rt targets) = Ok (name, ok))
  /\ ((hwnd = 0 \/
       (matchTitle (windowText os hwnd) keywords = None /\
        (is_nil (snd pid_err) = false \/ fst pid_err = 0 \/ handle = 0 \/
         fst (GetModuleFileNameExW os handle MAX_PATH) = 0))) ->
      result (getForegroundTarget os keywords) = Ok ("", false) /\
      result (FirstActiveTarget os rt targets)
      = result (afterForeground os keywords))
  /\ (forall w,
        GetWindowTextLengthW os w = 0
        \/ fst (GetWindowTextW os w (GetWindowTextLengthW os w + 1)) = 0 ->
        windowText os w = "" /\
        matchTitle (windowText os w) keywords = None /\
        forall found, result (enumCallback os keywords w found) = Ok (1, found))
  /\ (is_nil (snd (ps_Processes os)) = false ->
      isProcessActive os keywords = (Ok ("", false), [CallProcesses]) /\
      result (afterForeground os keywords)
      = result (isWindowActive os keywords)).
Proof.
  cbv zeta. split; [|split; [|split]].
  - destruct (FirstActiveTarget_result os rt targets) as (name & ok & Hr & _).
    exists name, ok. exact Hr.
  - intros Hfail.
    destruct (getForegroundTarget_path os (keywords_of rt targets))
      as (r & t & Heq & Hp).
    assert (Hr : r = ("", false)).
    { destruct Hp as [ | k ? Hm | | | pid handle log ? ? Hpid ? Hopen Hh ? ];
        try reflexivity.
      - destruct Hfail as [? | [Hn _]]; [contradiction | congruence].
      - destruct Hfail as [? | [_ Hf]]; [contradiction|].
        rewrite Hpid in Hf. cbn [fst snd is_nil] in Hf. rewrite Hopen in Hf.
        destruct Hf as [Hf | [Hf | [Hf | Hf]]];
          [discriminate | contradiction | contradiction |].
        unfold exeMatch.
        destruct (GetModuleFileNameExW os handle MAX_PATH) as [n data].
        cbn [fst] in Hf. subst n. reflexivity. }
    subst r. split; [rewrite Heq; reflexivity|].
    apply (FirstActiveTarget_fallthrough os rt targets "").
    rewrite Heq. reflexivity.
  - intros w Hw. pose proof (windowText_empty os w Hw) as He.
    rewrite He. split; [reflexivity|]. split; [reflexivity|].
    intros found. rewrite enumCallback_eq. unfold window_hit.
    rewrite He, matchTitle_empty.
    destruct (IsWindowVisible os w =? 0); reflexivity.
  - intros Herr. split.
    + rewrite isProcessActive_eq, Herr. reflexivity.
    + rewrite afterForeground_eq, Herr. reflexivity.
Qed.

(** *** The comparisons, exactly *)

Lemma no_match_Contains (keywords : list string) (lower : string) :
  no_match keywords lower <->
  forall k, k ∈ keywords -> Contains lower k = false.
Proof.
  unfold no_match. split.
  - intros H k Hk. apply contains_false, H, Hk.
  - intros H k Hk Hs. apply Contains_correct in Hs.
    rewrite (H k Hk) in Hs. discriminate.
Qed.

Lemma matchKeyword_first (lower : string) (keywords : list string) (k : string) :
  matchKeyword lower keywords = Some k <-> first_match keywords lower k.
Proof.
  unfold first_match. split.
  - induction keywords as [|k0 rest IH]; cbn [matchKeyword]; [discriminate|].
    destruct (Contains lower k0) eqn:E.
    + intros [= <-]. exists [], rest. split; [reflexivity|].
      split; [intros k' Hk'; inversion Hk' | apply Contains_correct, E].
    + intros H. destruct (IH H) as (pre & post & -> & Hn & Hs).
      exists (k0 :: pre), post. split; [reflexivity|]. split; [|exact Hs].
      intros k' Hk'. apply elem_of_cons in Hk' as [-> | Hk'].
      * intros Hc. apply Contains_correct in Hc. congruence.
      * apply Hn, Hk'.
  - intros (pre & post & -> & Hn & Hs). apply Contains_correct in Hs.
    induction pre as [|k0 pre IH]; cbn [app matchKeyword].
    + rewrite Hs. reflexivity.
    + assert (E : Contains lower k0 = false)
        by (apply contains_false, Hn; left).
      rewrite E. apply IH. intros k' Hk'. apply Hn. right. exact Hk'.
Qed.

Lemma matchKeyword_no_match (lower : string) (keywords : list string) :
  matchKeyword lower keywords = None <-> no_match keywords lower.
Proof. rewrite matchKeyword_None, no_match_Contains. reflexivity. Qed.

Lemma matchTitle_match (title : string) (keywords : list string) (k : string) :
  matchTitle title keywords = Some k <-> title_match keywords title k.
Proof.
  unfold matchTitle, title_match.
  destruct (String.eqb_spec title "") as [->|Hn]; cbn [negb].
  - split; [discriminate | intros [H _]; contradiction].
  - rewrite matchKeyword_first. tauto.
Qed.

Lemma matchTitle_no_match (title : string) (keywords : list string) :
  matchTitle title keywords = None <-> title_no_match keywords title.
Proof.
  unfold matchTitle, title_no_match.
  destruct (String.eqb_spec title "") as [->|Hn]; cbn [negb].
  - split; [left; reflexivity | reflexivity].
  - rewrite matchKeyword_no_match. split; [right; assumption|].
    intros [H|H]; [contradiction | exact H].
Qed.

Lemma scanProcesses_first (processes keywords : list string) (k : string) :
  scanProcesses processes keywords = Some k <->
  exists before p after,
    processes = before ++ p :: after
    /\ (forall q, q ∈ before -> no_match keywords (ToLower q))
    /\ first_match keywords (ToLower p) k.
Proof.
  split.
  - induction processes as [|p rest IH]; cbn [scanProcesses]; [discriminate|].
    destruct (matchKeyword (ToLower p) keywords) as [k'|] eqn:E.
    + intros [= <-]. exists [], p, rest. split; [reflexivity|].
      split; [intros q Hq; inversion Hq | apply matchKeyword_first, E].
    + intros H. destruct (IH H) as (before & p' & after & -> & Hb & Hf).
      exists (p :: before), p', after. split; [reflexivity|].
      split; [|exact Hf]. intros q Hq.
      apply elem_of_cons in Hq as [-> | Hq];
        [apply matchKeyword_no_match, E | apply Hb, Hq].
  - intros (before & p & after & -> & Hb & Hf).
    apply matchKeyword_first in Hf.
    induction before as [|q before IH]; cbn [app scanProcesses].
    + rewrite Hf. reflexivity.
    + assert (E : matchKeyword (ToLower q) keywords = None)
        by (apply matchKeyword_no_match, Hb; left).
      rewrite E. apply IH. intros q' Hq'. apply Hb. right. exact Hq'.
Qed.

Lemma window_hit_match (os : OS) (keywords : list string) (hwnd : Z)
    (k : string) :
  window_hit os keywords hwnd = Some k <->
  IsWindowVisible os hwnd <> 0 /\ title_match keywords (windowText os hwnd) k.
Proof.
  unfold window_hit.
  destruct (Z.eqb_spec (IsWindowVisible os hwnd) 0) as [E|E].
  - split; [discriminate | intros [H _]; contradiction].
  - rewrite matchTitle_match. tauto.
Qed.

Lemma window_hit_no_match (os : OS) (keywords : list string) (hwnd : Z) :
  window_hit os keywords hwnd = None <->
  IsWindowVisible os hwnd = 0 \/ title_no_match keywords (windowText os hwnd).
Proof.
  unfold window_hit.
  destruct (Z.eqb_spec (IsWindowVisible os hwnd) 0) as [E|E].
  - split; [left; exact E | reflexivity].
  - rewrite matchTitle_no_match. split; [right; assumption|].
    intros [H|H]; [contradiction | exact H].
Qed.

Lemma scanWindows_first (os : OS) (keywords : list string) (windows : list Z)
    (k : string) :
  scanWindows os keywords windows = Some k <->
  exists before w after,
    windows = before ++ w :: after
    /\ (forall h, h ∈ before ->
          IsWindowVisible os h = 0
          \/ title_no_match keywords (windowText os h))
    /\ IsWindowVisible os w <> 0
    /\ title_match keywords (windowText os w) k.
Proof.
  split.
  - induction windows as [|w rest IH]; cbn [scanWindows]; [discriminate|].
    destruct (window_hit os keywords w) as [k'|] eqn:E.
    + intros [= <-]. exists [], w, rest. split; [reflexivity|].
      split; [intros h Hh; inversion Hh | apply window_hit_match, E].
    + intros H. destruct (IH H) as (before & w' & after & -> & Hb & Hf).
      exists (w :: before), w', after. split; [reflexivity|].
      split; [|exact Hf]. intros h Hh.
      apply elem_of_cons in Hh as [-> | Hh];
        [apply window_hit_no_match, E | apply Hb, Hh].
  - intros (before & w & after & -> & Hb & Hf).
    apply window_hit_match in Hf.
    induction before as [|h before IH]; cbn [app scanWindows].
    + rewrite Hf. reflexivity.
    + assert (E : window_hit os keywords h = None)
        by (apply window_hit_no_match, Hb; left).
      rewrite E. apply IH. intros h' Hh'. apply Hb. right. exact Hh'.
Qed.

Lemma exeMatch_first (os : OS) (keywords : list string) (handle : Z)
    (k : string) :
  exeMatch os keywords handle = Some k <->
  fst (GetModuleFileNameExW os handle MAX_PATH) <> 0
  /\ first_match keywords
       (ToLower (filepath_Base
          (UTF16ToString
             (fill (make_uint16 MAX_PATH)
                (snd (GetModuleFileNameExW os handle MAX_PATH))))))
       k.
Proof.
  unfold exeMatch.
  destruct (GetModuleFileNameExW os handle MAX_PATH) as [n data].
  cbn [fst snd]. destruct (Z.eqb_spec n 0) as [E|E]; cbn [negb].
  - split; [discriminate | intros [H _]; contradiction].
  - rewrite matchKeyword_first. tauto.
Qed.

Lemma getForegroundTarget_reports (os : OS) (keywords : list string)
    (k : string) :
  result (getForegroundTarget os keywords) = Ok (k, true) <->
  foreground_reports os keywords k.
Proof.
  unfold foreground_reports. cbv zeta.
  destruct (getForegroundTarget_path os keywords) as (r & t & Heq & Hp).
  rewrite Heq. unfold result. cbn [fst]. split.
  - intros [= ->].
    inversion Hp as [ | k0 Hn Hm | | | pid handle log Hn Hm Hpid Hp0 Hopen Hh Hlog Hr ];
      subst.
    + split; [exact Hn|]. left. apply matchTitle_match, Hm.
    + destruct (exeMatch os keywords
                  (OpenProcess os
                     (Z.lor PROCESS_QUERY_INFORMATION PROCESS_VM_READ) pid))
        as [k'|] eqn:E; cbn [found_or_none] in Hr; [|discriminate].
      injection Hr as ->. apply exeMatch_first in E as [En Ef].
      split; [exact Hn|]. right. rewrite Hpid. cbn [fst snd is_nil].
      split; [apply matchTitle_no_match, Hm|]. auto.
  - intros [Hwnd [Ht | (Ht & Herr & Hpid0 & Hh & Hn & Hf)]].
    + apply matchTitle_match in Ht.
      destruct Hp; try contradiction; congruence.
    + apply matchTitle_no_match in Ht.
      assert (He : exeMatch os keywords
                     (OpenProcess os
                        (Z.lor PROCESS_QUERY_INFORMATION PROCESS_VM_READ)
                        (fst (GetWindowThreadProcessId os
                                (GetForegroundWindow os)))) = Some k)
        by (apply exeMatch_first; split; assumption).
      destruct Hp as [ H0 | k0 _ Hm | _ _ Hfail | pid _ _ Hpid _ Hopen
                     | pid handle log _ _ Hpid _ Hopen _ _ ].
      * contradiction.
      * congruence.
      * destruct Hfail; [congruence | contradiction].
      * rewrite Hpid in Hh. cbn [fst] in Hh. contradiction.
      * rewrite Hpid in He. cbn [fst] in He. rewrite Hopen in He.
        rewrite He. reflexivity.
Qed.

Lemma isProcessActive_reports (os : OS) (keywords : list string) (k : string) :
  result (isProcessActive os keywords) = Ok (k, true) <->
  process_list_reports os keywords k.
Proof.
  unfold process_list_reports. rewrite isProcessActive_eq.
  unfold result. cbn [fst]. rewrite <- scanProcesses_first.
  destruct (is_nil (snd (ps_Processes os))).
  - destruct (scanProcesses (fst (ps_Processes os)) keywords) as [k'|];
      cbn [found_or_none].
    + split; [intros [= ->]; auto | intros [_ [= ->]]; reflexivity].
    + split; [discriminate | intros [_ H]; discriminate].
  - split; [discriminate | intros [H _]; discriminate].
Qed.

Lemma isWindowActive_reports (os : OS) (keywords : list string) (k : string) :
  "" ∉ keywords ->
  (result (isWindowActive os keywords) = Ok (k, true) <->
   visible_window_reports os keywords k).
Proof.
  intros Hne. unfold visible_window_reports.
  rewrite <- scanWindows_first, isWindowActive_eq.
  destruct (scanWindows os keywords (EnumWindows_windows os)) as [k'|] eqn:E;
    unfold result; cbn [fst].
  - pose proof (scanWindows_Some _ _ _ _ E) as (h & _ & Hh).
    apply window_hit_Some in Hh as (_ & _ & Hk & _).
    destruct (String.eqb_spec k' ""); [subst; contradiction|].
    split; [intros [= ->]; reflexivity | intros [= ->]; reflexivity].
  - split; discriminate.
Qed.

Lemma same_letter_lower (c : ascii) : same_letter c (lowerASCII c) = true.
Proof. destruct c as [[] [] [] [] [] [] [] []]; reflexivity. Qed.

Lemma equal_fold_lower (s : string) :
  equal_fold s (string_map lowerASCII s) = true.
Proof.
  induction s as [|c s IH]; [reflexivity|].
  cbn [string_map equal_fold]. rewrite same_letter_lower, IH. reflexivity.
Qed.

Lemma same_letter_lowered (a b : ascii) :
  same_letter a b = true -> isUpper b = false -> lowerASCII a = b.
Proof.
  unfold same_letter, isUpper, lowerASCII, isUpper. cbv zeta.
  intros Hs Hb.
  destruct ((65 <=? N_of_ascii b)%N && (N_of_ascii b <=? 90)%N) eqn:Eb;
    [discriminate|].
  rewrite andb_false_l, orb_false_r in Hs.
  destruct ((65 <=? N_of_ascii a)%N && (N_of_ascii a <=? 90)%N) eqn:Ea.
  - cbn [andb] in Hs. apply orb_true_iff in Hs as [Hs | Hs].
    + apply N.eqb_eq in Hs.
      assert (a = b) by (rewrite <- (ascii_N_embedding a),
                           <- (ascii_N_embedding b), Hs; reflexivity).
      subst b. congruence.
    + apply N.eqb_eq in Hs. rewrite <- Hs. apply ascii_N_embedding.
  - rewrite andb_false_l, orb_false_r in Hs. apply N.eqb_eq in Hs.
    rewrite <- (ascii_N_embedding a), <- (ascii_N_embedding b), Hs.
    reflexivity.
Qed.

Lemma equal_fold_lowered (s k : string) :
  equal_fold s k = true -> string_existsb isUpper k = false ->
  string_map lowerASCII s = k.
Proof.
  revert k. induction s as [|a s IH]; intros [|b k]; cbn [equal_fold];
    try discriminate; [reflexivity|].
  cbn [string_existsb string_map]. rewrite andb_true_iff, orb_false_iff.
  intros [H1 H2] [H3 H4].
  rewrite (same_letter_lowered a b H1 H3), (IH k H2 H4). reflexivity.
Qed.

(** C4, as amended.  Comparisons are lower-case substring tests, made on
    executable names and on titles that are not empty.  [strings.Contains]
    holds exactly of the contiguous substrings; the loop over the keywords
    returns [k] exactly when [k] is the first keyword of the slice that is
    a substring of the lowered candidate; for an ASCII candidate and a
    keyword without upper-case letter, the keyword is a substring of the
    lowered candidate exactly when the candidate has a substring equal to
    the keyword up to the case of letters; the title test returns [k]
    exactly when the title is not empty and [k] is the first keyword that
    is a substring of the lowered title; the foreground strategy and the
    process-list strategy return [(k, true)] exactly when [k] is the first
    such keyword for the first candidate that has one; and so does the
    visible-window strategy when the empty string is not a keyword. *)
Theorem keyword_match_is_lowercase_containment :
  (forall s k, Contains s k = true <-> substring_of k s)
  /\ (forall keywords cand k,
        matchKeyword (ToLower cand) keywords = Some k <->
        first_match keywords (ToLower cand) k)
  /\ (forall cand k,
        string_forallb isASCII cand = true ->
        string_existsb isUpper k = false ->
        (substring_of k (ToLower cand) <->
         exists sub, substring_of sub cand /\ equal_fold sub k = true))
  /\ (forall keywords title k,
        matchTitle title keywords = Some k <->
        title <> "" /\ first_match keywords (ToLower title) k)
  /\ (forall os keywords k,
        result (getForegroundTarget os keywords) = Ok (k, true) <->
        foreground_reports os keywords k)
  /\ (forall os keywords k,
        result (isProcessActive os keywords) = Ok (k, true) <->
        process_list_reports os keywords k)
  /\ (forall os keywords k,
        "" ∉ keywords ->
        (result (isWindowActive os keywords) = Ok (k, true) <->
         visible_window_reports os keywords k)).
Proof.
  split; [exact Contains_correct|].
  split; [intros keywords cand k; apply matchKeyword_first|].
  split.
  { intros cand k Hascii Hlow. rewrite (ToLower_ASCII cand Hascii).
    unfold substring_of. split.
    - intros (pre & suf & H).
      apply string_map_eq_app in H as (s1 & s2 & -> & H1 & H2).
      apply string_map_eq_app in H2 as (s3 & s4 & -> & H3 & H4).
      exists s3. split; [exists s1, s4; reflexivity|].
      rewrite <- H3. apply equal_fold_lower.
    - intros (sub & (pre & suf & ->) & He).
      exists (string_map lowerASCII pre), (string_map lowerASCII suf).
      rewrite !string_map_app, (equal_fold_lowered sub k He Hlow).
      reflexivity. }
  split; [intros keywords title k; apply matchTitle_match|].
  split; [exact getForegroundTarget_reports|].
  split; [exact isProcessActive_reports | exact isWindowActive_reports].
Qed.

(** ** The visible-window strategy stops at the first hit *)

(** X11.  The first hit decides.  When the first hit, in the order of the
    enumeration, is on a keyword that is not the empty string, that keyword
    is returned, and the calls made are those on the windows up to the hit:
    the windows after it are not looked at. *)
Lemma isWindowActive_first_hit (os : OS) (keywords : list string)
    (pre post : list Z) (hwnd : Z) (k : string) :
  EnumWindows_windows os = pre ++ hwnd :: post ->
  (forall h, h ∈ pre -> window_hit os keywords h = None) ->
  window_hit os keywords hwnd = Some k ->
  k <> "" ->
  isWindowActive os keywords =
  (Ok (k, true),
   CallEnumWindows :: flat_map (probe os) (pre ++ [hwnd])
     ++ enumWarning os true).
Proof.
  intros Hws Hpre Hhit Hk. rewrite isWindowActive_eq, Hws.
  destruct (scan_first_hit os keywords pre post hwnd k Hpre Hhit) as [H1 H2].
  rewrite H1, H2.
  destruct (String.eqb_spec k ""); [contradiction | reflexivity].
Qed.

(** When the first hit is on the empty keyword, the enumeration stops
    there all the same, and the strategy returns [false]. *)
Lemma isWindowActive_empty_keyword (os : OS) (keywords : list string)
    (pre post : list Z) (hwnd : Z) :
  EnumWindows_windows os = pre ++ hwnd :: post ->
  (forall h, h ∈ pre -> window_hit os keywords h = None) ->
  window_hit os keywords hwnd = Some "" ->
  isWindowActive os keywords =
  (Ok ("", false),
   CallEnumWindows :: flat_map (probe os) (pre ++ [hwnd])
     ++ enumWarning os true).
Proof.
  intros Hws Hpre Hhit. rewrite isWindowActive_eq, Hws.
  destruct (scan_first_hit os keywords pre post hwnd "" Hpre Hhit) as [H1 H2].
  rewrite H1, H2. reflexivity.
Qed.

(** With the [lastErr] of [LazyProc.Call] never [nil], as Go documents
    it, the foreground strategy never reaches [OpenProcess]. *)
Remark lastErr_never_nil (os : OS) (keywords : list string) :
  (forall hwnd, is_nil (snd (GetWindowThreadProcessId os hwnd)) = false) ->
  forall r t, foreground_path os keywords r t ->
    forall access pid handle, CallOpenProcess access pid handle ∉ t.
Proof.
  intros Herr r t Hp access pid handle Hin.
  pose proof (getWindowText_trace os (GetForegroundWindow os)) as Hw.
  assert (Hnw : CallOpenProcess access pid handle
                  ∉ trace (getWindowText os (GetForegroundWindow os))).
  { intros Hc. rewrite Forall_forall in Hw. destruct (Hw _ Hc) as [Ha _].
    discriminate. }
  destruct Hp as [ | | | ? ? ? Hpid | ? ? ? ? ? Hpid ];
    try (specialize (Herr (GetForegroundWindow os)); rewrite Hpid in Herr;
         discriminate).
  - apply list_elem_of_singleton in Hin. discriminate.
  - apply elem_of_cons in Hin as [Hin|Hin]; [discriminate | contradiction].
  - apply elem_of_cons in Hin as [Hin|Hin]; [discriminate|].
    apply elem_of_app in Hin as [Hin|Hin]; [contradiction|].
    apply list_elem_of_singleton in Hin. discriminate.
Qed.

(** ** Further properties of the matcher *)

Lemma matchKeyword_exists (lower : string) (keywords : list string) (k : string) :
  k ∈ keywords -> Contains lower k = true ->
  exists k', matchKeyword lower keywords = Some k'.
Proof.
  intros Hin Hc. destruct (matchKeyword lower keywords) as [k'|] eqn:E.
  - exists k'. reflexivity.
  - rewrite matchKeyword_None in E. rewrite (E k Hin) in Hc. discriminate.
Qed.

Lemma scanProcesses_app (pre post keywords : list string) (p : string) :
  (forall q k, q ∈ pre -> k ∈ keywords -> Contains (ToLower q) k = false) ->
  scanProcesses (pre ++ p :: post) keywords =
  match matchKeyword (ToLower p) keywords with
  | Some k => Some k
  | None => scanProcesses post keywords
  end.
Proof.
  intros Hpre. induction pre as [|q pre IH]; [reflexivity|].
  cbn [app scanProcesses].
  assert (Hq : matchKeyword (ToLower q) keywords = None).
  { apply matchKeyword_None. intros k Hk. apply Hpre; [left | exact Hk]. }
  rewrite Hq. apply IH. intros q' k Hq' Hk. apply Hpre; [right|]; assumption.
Qed.

(** X1.  The process list comes before the windows.  When the foreground
    strategy finds nothing, the enumeration of the processes succeeds and
    some registered keyword is a substring of the lowered name of a running
    process, [FirstActiveTarget] returns with [true] a registered keyword
    that is a substring of the lowered name of a running process, and the
    only call it adds to those of the foreground strategy is the
    enumeration of the processes: the windows are not enumerated. *)
Theorem process_match_precedes_windows (os : OS) (rt : MapRange)
    (targets : gmap string string) (name p k : string) :
  result (getForegroundTarget os (keywords_of rt targets)) = Ok (name, false) ->
  is_nil (snd (ps_Processes os)) = true ->
  p ∈ fst (ps_Processes os) ->
  is_Some (targets !! k) ->
  substring_of k (ToLower p) ->
  exists k' p',
    FirstActiveTarget os rt targets =
    (Ok (k', true),
     trace (getForegroundTarget os (keywords_of rt targets)) ++ [CallProcesses])
    /\ is_Some (targets !! k')
    /\ p' ∈ fst (ps_Processes os)
    /\ substring_of k' (ToLower p').
Proof.
  intros Hfg Hnil Hp Hk Hs.
  destruct (scanProcesses (fst (ps_Processes os)) (keywords_of rt targets))
    as [k'|] eqn:E.
  2:{ rewrite scanProcesses_None in E. apply Contains_correct in Hs.
      rewrite (E p k) in Hs; [discriminate | exact Hp |].
      apply keywords_of_keys, Hk. }
  pose proof (scanProcesses_Some _ _ _ E) as [Hk' (p' & Hp' & Hc)].
  exists k', p'. split.
  - rewrite FirstActiveTarget_eq.
    destruct (getForegroundTarget os (keywords_of rt targets)) as [r t].
    unfold result in Hfg. cbn [fst] in Hfg. subst r.
    unfold afterForeground. rewrite isProcessActive_eq, Hnil, E.
    msimpl. reflexivity.
  - split; [apply keywords_of_keys in Hk'; exact Hk'|].
    split; [exact Hp' | apply Contains_correct, Hc].
Qed.

(** X2.  The first matching process decides.  When the enumeration of the
    processes succeeds and gives [pre ++ p :: post], no keyword being a
    substring of the lowered name of a process of [pre] and some keyword
    being one of the lowered name of [p], [isProcessActive] returns with
    [true] a keyword that is a substring of the lowered name of [p],
    whatever [post] holds. *)
Theorem first_matching_process_decides (os : OS) (keywords : list string)
    (pre post : list string) (p k : string) :
  ps_Processes os = (pre ++ p :: post, nil_error) ->
  (forall q k', q ∈ pre -> k' ∈ keywords -> ~ substring_of k' (ToLower q)) ->
  k ∈ keywords ->
  substring_of k (ToLower p) ->
  exists k',
    isProcessActive os keywords = (Ok (k', true), [CallProcesses])
    /\ k' ∈ keywords
    /\ substring_of k' (ToLower p).
Proof.
  intros Hps Hpre Hk Hs. apply Contains_correct in Hs.
  destruct (matchKeyword_exists _ _ _ Hk Hs) as [k' Hm].
  exists k'. pose proof (matchKeyword_Some _ _ _ Hm) as [Hin Hc].
  split; [|split; [exact Hin | apply Contains_correct, Hc]].
  rewrite isProcessActive_eq, Hps. cbn [fst snd is_nil].
  rewrite scanProcesses_app, Hm; [reflexivity|].
  intros q k'' Hq Hk''. apply contains_false, Hpre; assumption.
Qed.

Lemma getWindowText_no_process_step (os : OS) (hwnd : Z) :
  Forall (fun e => process_step_call e = false) (trace (getWindowText os hwnd)).
Proof.
  unfold trace. rewrite getWindowText_eq. cbv zeta.
  destruct (GetWindowTextLengthW os hwnd =? 0); repeat constructor.
Qed.

(** X3.  With a [lastErr] that is not [nil] the executable name is never
    looked at.  When the error value that comes with
    [GetWindowThreadProcessId] for the foreground window is not [nil] (Go
    documents the [lastErr] of [LazyProc.Call] as never [nil]), the
    foreground strategy decides on the title alone: it returns what the
    title test finds, and calls neither [OpenProcess] nor
    [GetModuleFileNameExW] nor [CloseHandle]. *)
Theorem foreground_decides_on_title_alone (os : OS) (keywords : list string) :
  is_nil (snd (GetWindowThreadProcessId os (GetForegroundWindow os))) = false ->
  result (getForegroundTarget os keywords) =
    Ok (if GetForegroundWindow os =? 0 then ("", false)
        else found_or_none
               (matchTitle (windowText os (GetForegroundWindow os)) keywords))
  /\ Forall (fun e => process_step_call e = false)
       (trace (getForegroundTarget os keywords)).
Proof.
  intros Herr.
  destruct (getForegroundTarget_path os keywords) as (r & t & Heq & Hp).
  rewrite Heq. unfold result, trace. cbn [fst snd].
  pose proof (getWindowText_no_process_step os (GetForegroundWindow os)) as Hw.
  destruct Hp as [ H0 | k Hn Hm | Hn Hm Hf | pid Hn Hm Hpid | pid handle log Hn Hm Hpid ].
  - rewrite H0. split; [reflexivity | repeat constructor].
  - apply Z.eqb_neq in Hn. rewrite Hn, Hm.
    split; [reflexivity | constructor; [reflexivity | exact Hw]].
  - apply Z.eqb_neq in Hn. rewrite Hn, Hm. split; [reflexivity|].
    constructor; [reflexivity|]. apply Forall_app. split; [exact Hw|].
    repeat constructor.
  - rewrite Hpid in Herr. discriminate.
  - rewrite Hpid in Herr. discriminate.
Qed.

Lemma getWindowText_text_calls (os : OS) (w hwnd : Z) :
  w <> hwnd ->
  Forall (fun e => text_call_on hwnd e = false) (trace (getWindowText os w)).
Proof.
  intros Hne. apply Z.eqb_neq in Hne.
  unfold trace. rewrite getWindowText_eq. cbv zeta.
  destruct (GetWindowTextLengthW os w =? 0); repeat constructor;
    cbn [text_call_on]; exact Hne.
Qed.

Lemma scanCalls_text_calls (os : OS) (keywords : list string)
    (windows : list Z) (hwnd : Z) :
  IsWindowVisible os hwnd = 0 ->
  Forall (fun e => text_call_on hwnd e = false) (scanCalls os keywords windows).
Proof.
  intros Hv. induction windows as [|w rest IH]; [constructor|].
  cbn [scanCalls]. apply Forall_app. split.
  - unfold probe. constructor; [reflexivity|].
    destruct (Z.eqb_spec (IsWindowVisible os w) 0) as [|Hw]; [constructor|].
    apply getWindowText_text_calls. intros ->. contradiction.
  - destruct (window_hit os keywords w); [constructor | exact IH].
Qed.

(** X5.  The text of a window that is not visible is never read.  For a
    window that [IsWindowVisible] reports as not visible, the
    visible-window strategy calls neither [GetWindowTextLengthW] nor
    [GetWindowTextW] on it. *)
Theorem invisible_window_text_not_read (os : OS) (keywords : list string)
    (hwnd : Z) :
  IsWindowVisible os hwnd = 0 ->
  Forall (fun e => text_call_on hwnd e = false)
    (trace (isWindowActive os keywords)).
Proof.
  intros Hv. unfold trace. rewrite isWindowActive_eq.
  assert (Hw : forall stopped,
             Forall (fun e => text_call_on hwnd e = false)
               (enumWarning os stopped)).
  { intros stopped. unfold enumWarning.
    destruct (_ && _); repeat constructor. }
  destruct (scanWindows os keywords (EnumWindows_windows os)); cbn [snd];
    (constructor; [reflexivity|]; apply Forall_app; split;
     [apply scanCalls_text_calls, Hv | apply Hw]).
Qed.

(** *** The order of the keywords *)

Lemma matchKeyword_perm (lower : string) (kws kws' : list string) :
  kws ≡ₚ kws' ->
  is_found (matchKeyword lower kws) = is_found (matchKeyword lower kws').
Proof.
  intros Hp.
  destruct (matchKeyword lower kws) as [k|] eqn:E;
    destruct (matchKeyword lower kws') as [k'|] eqn:E'; try reflexivity.
  - apply matchKeyword_Some in E as [Hin Hc]. rewrite matchKeyword_None in E'.
    rewrite (E' k) in Hc; [discriminate | rewrite <- Hp; exact Hin].
  - apply matchKeyword_Some in E' as [Hin Hc]. rewrite matchKeyword_None in E.
    rewrite (E k') in Hc; [discriminate | rewrite Hp; exact Hin].
Qed.

Lemma matchTitle_perm (title : string) (kws kws' : list string) :
  kws ≡ₚ kws' ->
  is_found (matchTitle title kws) = is_found (matchTitle title kws').
Proof.
  intros Hp. unfold matchTitle.
  destruct (negb (title =? "")%string); [apply matchKeyword_perm, Hp | reflexivity].
Qed.

Lemma exeMatch_perm (os : OS) (handle : Z) (kws kws' : list string) :
  kws ≡ₚ kws' ->
  is_found (exeMatch os kws handle) = is_found (exeMatch os kws' handle).
Proof.
  intros Hp. unfold exeMatch.
  destruct (GetModuleFileNameExW os handle MAX_PATH) as [n data].
  destruct (negb (n =? 0)); [apply matchKeyword_perm, Hp | reflexivity].
Qed.

Lemma scanProcesses_perm (processes kws kws' : list string) :
  kws ≡ₚ kws' ->
  is_found (scanProcesses processes kws) = is_found (scanProcesses processes kws').
Proof.
  intros Hp. induction processes as [|p rest IH]; [reflexivity|].
  cbn [scanProcesses]. pose proof (matchKeyword_perm (ToLower p) _ _ Hp) as Hm.
  destruct (matchKeyword (ToLower p) kws);
    destruct (matchKeyword (ToLower p) kws'); try discriminate;
    [reflexivity | exact IH].
Qed.

Lemma window_hit_perm (os : OS) (hwnd : Z) (kws kws' : list string) :
  kws ≡ₚ kws' ->
  is_found (window_hit os kws hwnd) = is_found (window_hit os kws' hwnd).
Proof.
  intros Hp. unfold window_hit.
  destruct (IsWindowVisible os hwnd =? 0); [reflexivity | apply matchTitle_perm, Hp].
Qed.

Lemma scanWindows_perm (os : OS) (windows : list Z) (kws kws' : list string) :
  kws ≡ₚ kws' ->
  is_found (scanWindows os kws windows) = is_found (scanWindows os kws' windows)
  /\ scanCalls os kws windows = scanCalls os kws' windows.
Proof.
  intros Hp. induction windows as [|w rest [IH1 IH2]]; [split; reflexivity|].
  cbn [scanWindows scanCalls]. pose proof (window_hit_perm os w _ _ Hp) as Hm.
  destruct (window_hit os kws w); destruct (window_hit os kws' w);
    try discriminate; split; try reflexivity; [exact IH1 | rewrite IH2; reflexivity].
Qed.

Lemma found_or_none_found (o : option string) :
  exists k, found_or_none o = (k, is_found o).
Proof. destruct o as [k|]; [exists k | exists ""]; reflexivity. Qed.

Lemma getForegroundTarget_perm (os : OS) (kws kws' : list string) :
  kws ≡ₚ kws' ->
  same_outcome (getForegroundTarget os kws) (getForegroundTarget os kws').
Proof.
  intros Hperm.
  destruct (getForegroundTarget_path os kws) as (r & t & Heq & Hp).
  destruct (getForegroundTarget_path os kws') as (r' & t' & Heq' & Hp').
  rewrite Heq, Heq'. unfold same_outcome.
  pose proof (matchTitle_perm (windowText os (GetForegroundWindow os)) _ _ Hperm)
    as Hm.
  destruct Hp as [ H0 | k Hn Ht | Hn Ht Hf | pid Hn Ht Hpid Hp0 Hopen
                 | pid handle log Hn Ht Hpid Hp0 Hopen Hh Hlog ];
    destruct Hp' as [ H0' | k' Hn' Ht' | Hn' Ht' Hf' | pid' Hn' Ht' Hpid' Hp0' Hopen'
                    | pid' handle' log' Hn' Ht' Hpid' Hp0' Hopen' Hh' Hlog' ];
    try contradiction;
    try (rewrite Ht, Ht' in Hm; discriminate);
    try (rewrite Hpid in Hpid'; injection Hpid' as <-);
    try (rewrite Hpid in Hf'; cbn [fst snd is_nil] in Hf';
         destruct Hf'; [discriminate | contradiction]);
    try (rewrite Hpid' in Hf; cbn [fst snd is_nil] in Hf;
         destruct Hf; [discriminate | contradiction]);
    try congruence;
    try (eexists _, _, _, _; split; reflexivity).
  rewrite Hopen in Hopen'. subst handle'. subst log log'.
  destruct (found_or_none_found (exeMatch os kws handle)) as [k ->].
  destruct (found_or_none_found (exeMatch os kws' handle)) as [k' ->].
  rewrite (exeMatch_perm os handle _ _ Hperm).
  eexists _, _, _, _; split; reflexivity.
Qed.

Lemma isWindowActive_perm (os : OS) (kws kws' : list string) :
  kws ≡ₚ kws' -> "" ∉ kws ->
  same_outcome (isWindowActive os kws) (isWindowActive os kws').
Proof.
  intros Hperm Hne. rewrite !isWindowActive_eq.
  destruct (scanWindows_perm os (EnumWindows_windows os) _ _ Hperm) as [H1 H2].
  rewrite H2.
  destruct (scanWindows os kws (EnumWindows_windows os)) as [k|] eqn:E;
    destruct (scanWindows os kws' (EnumWindows_windows os)) as [k'|] eqn:E';
    try discriminate.
  - apply scanWindows_Some in E as (h & _ & Hh).
    apply window_hit_Some in Hh as (_ & _ & Hk & _).
    apply scanWindows_Some in E' as (h' & _ & Hh').
    apply window_hit_Some in Hh' as (_ & _ & Hk' & _).
    rewrite <- Hperm in Hk'.
    destruct (String.eqb_spec k ""); [subst; contradiction|].
    destruct (String.eqb_spec k' ""); [subst; contradiction|].
    eexists _, _, _, _; split; reflexivity.
  - eexists _, _, _, _; split; reflexivity.
Qed.

Lemma afterForeground_run (os : OS) (keywords : list string) :
  afterForeground os keywords =
  if is_nil (snd (ps_Processes os)) then
    match scanProcesses (fst (ps_Processes os)) keywords with
    | Some keyword => (Ok (keyword, true), [CallProcesses])
    | None => (result (isWindowActive os keywords),
               CallProcesses :: trace (isWindowActive os keywords))
    end
  else (result (isWindowActive os keywords),
        CallProcesses :: trace (isWindowActive os keywords)).
Proof.
  unfold afterForeground. rewrite isProcessActive_eq, isWindowActive_eq.
  destruct (is_nil (snd (ps_Processes os)));
    [destruct (scanProcesses (fst (ps_Processes os)) keywords)|];
    try reflexivity;
    destruct (scanWindows os keywords (EnumWindows_windows os)) as [k|];
    msimpl; rewrite ?app_nil_r; try reflexivity;
    destruct (k =? "")%string; cbn; rewrite ?app_nil_r; reflexivity.
Qed.

Lemma afterForeground_perm (os : OS) (kws kws' : list string) :
  kws ≡ₚ kws' -> "" ∉ kws ->
  same_outcome (afterForeground os kws) (afterForeground os kws').
Proof.
  intros Hperm Hne. rewrite !afterForeground_run.
  destruct (isWindowActive_perm os _ _ Hperm Hne) as (k & k' & ok & t & Hw & Hw').
  assert (Hwin : same_outcome
            (result (isWindowActive os kws),
             CallProcesses :: trace (isWindowActive os kws))
            (result (isWindowActive os kws'),
             CallProcesses :: trace (isWindowActive os kws'))).
  { rewrite Hw, Hw'. eexists _, _, _, _; split; reflexivity. }
  destruct (is_nil (snd (ps_Processes os))); [|exact Hwin].
  pose proof (scanProcesses_perm (fst (ps_Processes os)) _ _ Hperm) as Hs.
  destruct (scanProcesses (fst (ps_Processes os)) kws);
    destruct (scanProcesses (fst (ps_Processes os)) kws');
    try discriminate; [|exact Hwin].
  eexists _, _, _, _; split; reflexivity.
Qed.

(** X6.  The iteration order of the map.  When the empty string is not a
    key of the targets, two runs of [FirstActiveTarget] on the same system
    that differ in the order in which Go iterates over the map make the
    same calls and agree on whether a target was found; only the keyword
    reported may differ. *)
Theorem iteration_order_keeps_outcome (os : OS) (rt rt' : MapRange)
    (targets : gmap string string) :
  targets !! "" = None ->
  same_outcome (FirstActiveTarget os rt targets)
               (FirstActiveTarget os rt' targets).
Proof.
  intros Hempty.
  assert (Hperm : keywords_of rt targets ≡ₚ keywords_of rt' targets).
  { unfold keywords_of. rewrite !range_order_perm. reflexivity. }
  assert (Hne : "" ∉ keywords_of rt targets).
  { intros Hin. apply keywords_of_keys in Hin. rewrite Hempty in Hin.
    destruct Hin as [v Hv]. discriminate. }
  rewrite !FirstActiveTarget_eq.
  destruct (getForegroundTarget_perm os _ _ Hperm) as (k & k' & ok & t & -> & ->).
  destruct ok.
  - msimpl. eexists _, _, _, _; split; reflexivity.
  - destruct (afterForeground_perm os _ _ Hperm Hne)
      as (k1 & k1' & ok1 & t1 & H1 & H1').
    msimpl. rewrite H1, H1'. eexists _, _, _, _; split; reflexivity.
Qed.

(** *** What a negative answer means *)

Lemma substring_of_empty (k : string) : substring_of k "" -> k = "".
Proof.
  intros (pre & suf & H). destruct pre; [|discriminate].
  destruct k; [reflexivity | discriminate].
Qed.

Lemma matchTitle_None (title : string) (keywords : list string) (k : string) :
  matchTitle title keywords = None -> "" ∉ keywords -> k ∈ keywords ->
  ~ substring_of k (ToLower title).
Proof.
  unfold matchTitle. intros Hm Hne Hk Hs.
  destruct (String.eqb_spec title "") as [->|Hn]; cbn [negb] in Hm.
  - apply substring_of_empty in Hs. subst k. contradiction.
  - rewrite matchKeyword_None in Hm. apply Contains_correct in Hs.
    rewrite (Hm k Hk) in Hs. discriminate.
Qed.

(** X7.  A negative answer is complete.  When the empty string is not a
    key of the targets and [FirstActiveTarget] returns [false], no
    registered keyword is a substring of the lowered title of the foreground
    window, nor, if the enumeration of the processes succeeded, of the
    lowered name of a running process, nor of the lowered title of a visible
    top-level window. *)
Theorem not_found_means_no_match (os : OS) (rt : MapRange)
    (targets : gmap string string) (name : string) :
  targets !! "" = None ->
  result (FirstActiveTarget os rt targets) = Ok (name, false) ->
  (GetForegroundWindow os <> 0 ->
   forall k, is_Some (targets !! k) ->
     ~ substring_of k (ToLower (windowText os (GetForegroundWindow os))))
  /\ (is_nil (snd (ps_Processes os)) = true ->
      forall p k, p ∈ fst (ps_Processes os) -> is_Some (targets !! k) ->
        ~ substring_of k (ToLower p))
  /\ (forall w k, w ∈ EnumWindows_windows os -> IsWindowVisible os w <> 0 ->
        is_Some (targets !! k) ->
        ~ substring_of k (ToLower (windowText os w))).
Proof.
  intros Hempty Hres.
  assert (Hne : "" ∉ keywords_of rt targets).
  { intros Hin. apply keywords_of_keys in Hin. rewrite Hempty in Hin.
    destruct Hin as [v Hv]. discriminate. }
  destruct (getForegroundTarget_path os (keywords_of rt targets))
    as ([n0 ok0] & t & Heq & Hp).
  destruct ok0.
  { rewrite (FirstActiveTarget_found _ _ _ _ _ Heq) in Hres. discriminate. }
  rewrite (FirstActiveTarget_fallthrough os rt targets n0) in Hres
    by (rewrite Heq; reflexivity).
  rewrite afterForeground_eq in Hres.
  assert (Hwin : result (isWindowActive os (keywords_of rt targets))
                 = Ok (name, false)).
  { destruct (is_nil (snd (ps_Processes os))); [|exact Hres].
    destruct (scanProcesses _ _); [discriminate | exact Hres]. }
  split; [|split].
  - intros Hwnd k Hk. apply <- (keywords_of_keys rt) in Hk.
    apply (matchTitle_None _ (keywords_of rt targets)); try assumption.
    inversion Hp; subst; try reflexivity; try contradiction; assumption.
  - intros Hnil p k Hin Hk. apply <- (keywords_of_keys rt) in Hk.
    rewrite Hnil in Hres.
    destruct (scanProcesses (fst (ps_Processes os)) (keywords_of rt targets))
      eqn:E; [discriminate|].
    rewrite scanProcesses_None in E. intros Hs. apply Contains_correct in Hs.
    rewrite (E p k Hin Hk) in Hs. discriminate.
  - intros w k Hin Hv Hk. apply <- (keywords_of_keys rt) in Hk.
    rewrite isWindowActive_eq in Hwin.
    destruct (scanWindows os (keywords_of rt targets) (EnumWindows_windows os))
      as [k0|] eqn:E.
    { pose proof (scanWindows_Some _ _ _ _ E) as (h & _ & Hh).
      apply window_hit_Some in Hh as (_ & _ & Hk0 & _).
      destruct (String.eqb_spec k0 ""); [subst; contradiction | discriminate]. }
    rewrite scanWindows_None in E. specialize (E w Hin).
    unfold window_hit in E. apply Z.eqb_neq in Hv. rewrite Hv in E.
    apply (matchTitle_None _ (keywords_of rt targets)); assumption.
Qed.

(** *** Process handles over the whole chain *)

Lemma open_handles_no_process_step (t : list event) (held : list Z) :
  Forall (fun e => process_step_call e = false) t ->
  open_handles t held = held.
Proof.
  induction 1 as [|e t He _ IH]; [reflexivity|].
  destruct e; try discriminate; exact IH.
Qed.

Lemma isWindowActive_no_process_step (os : OS) (keywords : list string) :
  Forall (fun e => process_step_call e = false)
    (trace (isWindowActive os keywords)).
Proof.
  unfold trace. rewrite isWindowActive_eq.
  assert (Hs : forall windows,
             Forall (fun e => process_step_call e = false)
               (scanCalls os keywords windows)).
  { induction windows as [|w rest IH]; [constructor|].
    cbn [scanCalls]. apply Forall_app. split.
    - unfold probe. constructor; [reflexivity|].
      destruct (IsWindowVisible os w =? 0);
        [constructor | apply getWindowText_no_process_step].
    - destruct (window_hit os keywords w); [constructor | exact IH]. }
  assert (Hw : forall stopped,
             Forall (fun e => process_step_call e = false)
               (enumWarning os stopped)).
  { intros stopped. unfold enumWarning. destruct (_ && _); repeat constructor. }
  destruct (scanWindows os keywords (EnumWindows_windows os)); cbn [snd];
    (constructor; [reflexivity|]; apply Forall_app; split; [apply Hs | apply Hw]).
Qed.

(** X8.  No handle outlives [FirstActiveTarget].  Whatever handles were
    open before, a run of [FirstActiveTarget] leaves the same handles open;
    and the process-list and visible-window strategies make no call on a
    process handle at all. *)
Theorem chain_leaves_no_handle (os : OS) (rt : MapRange)
    (targets : gmap string string) (held : list Z) :
  open_handles (trace (FirstActiveTarget os rt targets)) held = held
  /\ Forall (fun e => process_step_call e = false)
       (trace (afterForeground os (keywords_of rt targets))).
Proof.
  assert (Ha : Forall (fun e => process_step_call e = false)
                 (trace (afterForeground os (keywords_of rt targets)))).
  { rewrite afterForeground_run.
    pose proof (isWindowActive_no_process_step os (keywords_of rt targets)) as Hw.
    destruct (is_nil (snd (ps_Processes os)));
      [destruct (scanProcesses _ _)|]; unfold trace at 1; cbn [snd];
      constructor; try reflexivity; try exact Hw; constructor. }
  split; [|exact Ha].
  rewrite FirstActiveTarget_eq.
  destruct (getForegroundTarget_path os (keywords_of rt targets))
    as ([n0 ok0] & t & Heq & Hp).
  rewrite Heq. pose proof (foreground_path_handles _ _ _ _ held Hp) as Hf.
  destruct ok0; msimpl.
  - rewrite app_nil_r. exact Hf.
  - destruct (afterForeground os (keywords_of rt targets)) as [r t'].
    cbn [snd] in *. rewrite open_handles_app, Hf.
    apply open_handles_no_process_step, Ha.
Qed.

(** *** Keywords that cannot match, and one that always does *)

Lemma lowerASCII_not_upper (c : ascii) : isUpper (lowerASCII c) = false.
Proof. destruct c as [[] [] [] [] [] [] [] []]; reflexivity. Qed.

Lemma string_map_lower_no_upper (s : string) :
  string_existsb isUpper (string_map lowerASCII s) = false.
Proof.
  induction s as [|c s IH]; [reflexivity|].
  cbn [string_map string_existsb]. rewrite lowerASCII_not_upper, IH. reflexivity.
Qed.

Lemma string_existsb_app (p : ascii -> bool) (a b : string) :
  string_existsb p (a +:+ b) = string_existsb p a || string_existsb p b.
Proof.
  induction a as [|c a IH]; [reflexivity|].
  change (String c a +:+ b) with (String c (a +:+ b)).
  cbn [string_existsb]. rewrite IH, orb_assoc. reflexivity.
Qed.

(** X9.  A keyword with an upper-case letter is dead.  The candidate is
    lowered but the keyword is not: for an ASCII title or name, a keyword
    that holds an upper-case ASCII letter is never contained in the lowered
    candidate, so the loop over the keywords never reports it. *)
Theorem upper_case_keyword_never_matches (cand k : string)
    (keywords : list string) :
  string_forallb isASCII cand = true ->
  string_existsb isUpper k = true ->
  Contains (ToLower cand) k = false
  /\ matchKeyword (ToLower cand) keywords <> Some k.
Proof.
  intros Hascii Hup.
  assert (Hc : Contains (ToLower cand) k = false).
  { apply contains_false. intros (pre & suf & H).
    rewrite (ToLower_ASCII cand Hascii) in H.
    pose proof (string_map_lower_no_upper cand) as Hn. rewrite H in Hn.
    rewrite !string_existsb_app, Hup in Hn.
    rewrite orb_true_l, orb_true_r in Hn. discriminate. }
  split; [exact Hc|]. intros Hm. apply matchKeyword_Some in Hm as [_ Hm].
  rewrite Hc in Hm. discriminate.
Qed.

(** X10.  The empty keyword matches almost anything.  When the empty
    string is a key of the targets, [FirstActiveTarget] returns [true] as
    soon as the foreground window has a title that is not empty, or the
    enumeration of the processes succeeds and gives at least one process. *)
Theorem empty_keyword_is_found (os : OS) (rt : MapRange)
    (targets : gmap string string) :
  is_Some (targets !! "") ->
  (GetForegroundWindow os <> 0
   /\ windowText os (GetForegroundWindow os) <> "")
  \/ (is_nil (snd (ps_Processes os)) = true /\ fst (ps_Processes os) <> []) ->
  exists k, result (FirstActiveTarget os rt targets) = Ok (k, true).
Proof.
  intros Hkey Hcase. apply <- (keywords_of_keys rt) in Hkey.
  destruct (getForegroundTarget_path os (keywords_of rt targets))
    as ([n0 ok0] & t & Heq & Hp).
  destruct ok0.
  { exists n0. rewrite (FirstActiveTarget_found _ _ _ _ _ Heq). reflexivity. }
  destruct Hcase as [[Hwnd Htitle] | [Hnil Hps]].
  - exfalso.
    destruct (matchKeyword_exists
                (ToLower (windowText os (GetForegroundWindow os)))
                _ "" Hkey (Contains_empty _)) as [k' Hk'].
    assert (Hm : matchTitle (windowText os (GetForegroundWindow os))
                   (keywords_of rt targets) = Some k').
    { unfold matchTitle.
      destruct (String.eqb_spec (windowText os (GetForegroundWindow os)) "");
        [contradiction | exact Hk']. }
    inversion Hp; subst; try contradiction; congruence.
  - rewrite (FirstActiveTarget_fallthrough os rt targets n0)
      by (rewrite Heq; reflexivity).
    rewrite afterForeground_eq, Hnil.
    destruct (fst (ps_Processes os)) as [|p rest]; [contradiction|].
    cbn [scanProcesses].
    destruct (matchKeyword_exists (ToLower p) _ "" Hkey (Contains_empty _))
      as [k' ->].
    exists k'. reflexivity.
Qed.

(** *** A title that several keywords match, and the warning of a hit *)

(** X14.  Any match on the title of the foreground window is final.  When
    there is a foreground window whose title is not empty and some
    registered keyword is a substring of the lowered title,
    [FirstActiveTarget] returns with [true] a registered keyword that is a
    substring of the lowered title (which one, when several are, is up to
    the iteration order of the map), after the three calls that read the
    title and no other. *)
Theorem foreground_title_match (os : OS) (rt : MapRange)
    (targets : gmap string string) (k : string) :
  GetForegroundWindow os <> 0 ->
  windowText os (GetForegroundWindow os) <> "" ->
  is_Some (targets !! k) ->
  substring_of k (ToLower (windowText os (GetForegroundWindow os))) ->
  exists k',
    FirstActiveTarget os rt targets =
    (Ok (k', true),
     [CallGetForegroundWindow;
      CallGetWindowTextLengthW (GetForegroundWindow os);
      CallGetWindowTextW (GetForegroundWindow os)
        (GetWindowTextLengthW os (GetForegroundWindow os) + 1)])
    /\ is_Some (targets !! k')
    /\ substring_of k' (ToLower (windowText os (GetForegroundWindow os))).
Proof.
  intros Hwnd Htitle Hk Hs.
  apply <- (keywords_of_keys rt) in Hk. apply Contains_correct in Hs.
  destruct (matchKeyword_exists _ _ _ Hk Hs) as [k' Hk'].
  pose proof (matchKeyword_Some _ _ _ Hk') as [Hin Hc].
  assert (Hm : matchTitle (windowText os (GetForegroundWindow os))
                 (keywords_of rt targets) = Some k').
  { unfold matchTitle.
    destruct (String.eqb_spec (windowText os (GetForegroundWindow os)) "");
      [contradiction | exact Hk']. }
  exists k'.
  destruct (getForegroundTarget_path os (keywords_of rt targets))
    as (r & t & Heq & Hp).
  assert (Hrt : r = (k', true) /\
                t = CallGetForegroundWindow
                      :: trace (getWindowText os (GetForegroundWindow os))).
  { destruct Hp; try contradiction; try congruence. split; congruence. }
  destruct Hrt as [-> ->].
  rewrite (getWindowText_titled os _ Htitle) in Heq.
  rewrite (FirstActiveTarget_found _ _ _ _ _ Heq).
  split; [reflexivity|].
  split; [apply keywords_of_keys in Hin; exact Hin | apply Contains_correct, Hc].
Qed.

(** X15.  A hit is logged as a failed enumeration.  The callback stops
    the enumeration by returning 0, so [EnumWindows] returns 0; when the
    error value of the call is not [nil] (as Go documents for the [lastErr]
    of [LazyProc.Call]), the visible-window strategy logs the warning
    "EnumWindows call failed" as its last action every time it finds a
    keyword. *)
Theorem hit_logs_enumeration_warning (os : OS) (keywords : list string)
    (k : string) :
  result (isWindowActive os keywords) = Ok (k, true) ->
  is_nil (snd (EnumWindows_result os)) = false ->
  exists t,
    trace (isWindowActive os keywords) =
    t ++ [LogPrintf "Warning: EnumWindows call failed with an error: %v"].
Proof.
  unfold result, trace. rewrite isWindowActive_eq. intros Hr Herr.
  destruct (scanWindows os keywords (EnumWindows_windows os)) as [k0|];
    cbn [fst snd] in *; [|discriminate].
  exists (CallEnumWindows :: scanCalls os keywords (EnumWindows_windows os)).
  unfold enumWarning. rewrite Herr. reflexivity.
Qed.

End Matcher.

(** ** The claims about the event watcher *)

Lemma messageLoop_goes_on (m : pumped) (rest : list pumped) :
  goes_on m = true ->
  messageLoop (m :: rest) =
  (fst (messageLoop rest),
   [CallGetMessageW; CallTranslateMessage; CallDispatchMessageW]
     ++ snd (messageLoop rest)).
Proof.
  unfold goes_on. rewrite !andb_true_iff, !negb_true_iff.
  intros [[H1 H2] H3]. cbn [messageLoop]. rewrite H1, H2, H3.
  destruct (messageLoop rest). reflexivity.
Qed.

Lemma messageLoop_left (msgs : list pumped) :
  fst (messageLoop msgs) = Some true <->
  exists pre m post,
    msgs = pre ++ m :: post
    /\ int32 (GetMessageW_ret m) = -1
    /\ forallb goes_on pre = true.
Proof.
  induction msgs as [|m rest IH].
  - split; [discriminate|]. intros (pre & m & post & H & _).
    destruct pre; discriminate.
  - destruct (goes_on m) eqn:Eg.
    + rewrite (messageLoop_goes_on m rest Eg). cbn [fst]. rewrite IH. split.
      * intros (pre & m' & post & -> & H1 & H2).
        exists (m :: pre), m', post. cbn [forallb]. rewrite Eg, H2. auto.
      * intros (pre & m' & post & H & H1 & H2). destruct pre as [|p pre].
        -- injection H as <- <-. unfold goes_on in Eg.
           apply Z.eqb_eq in H1. rewrite H1 in Eg. discriminate.
        -- injection H as <- ->. cbn [forallb] in H2.
           apply andb_true_iff in H2 as [_ H2].
           exists pre, m', post. auto.
    + cbn [messageLoop]. unfold goes_on in Eg.
      destruct (Z.eqb_spec (int32 (GetMessageW_ret m)) (-1)) as [E1|E1].
      * split; [|reflexivity]. intros _. exists [], m, rest. auto.
      * cbn [negb andb] in Eg.
        assert (Hf : fst (if errno_nonzero (TranslateMessage_err m)
                          then (Some false,
                                [CallGetMessageW; CallTranslateMessage;
                                 LogFatalf "TranslateMessage failed: %v"])
                          else if errno_nonzero (DispatchMessageW_err m)
                          then (Some false,
                                [CallGetMessageW; CallTranslateMessage;
                                 CallDispatchMessageW;
                                 LogFatalf "DispatchMessageW failed: %v"])
                          else let '(r, t) := messageLoop rest in
                               (r, [CallGetMessageW; CallTranslateMessage;
                                    CallDispatchMessageW] ++ t))
                     = Some false).
        { destruct (errno_nonzero (TranslateMessage_err m)); [reflexivity|].
          destruct (errno_nonzero (DispatchMessageW_err m)); [reflexivity|].
          discriminate. }
        rewrite Hf. split; [discriminate|].
        intros (pre & m' & post & H & H1 & H2). destruct pre as [|p pre].
        -- injection H as <- <-. contradiction.
        -- injection H as <- ->. cbn [forallb] in H2.
           apply andb_true_iff in H2 as [H2 _]. unfold goes_on in H2.
           apply Z.eqb_neq in E1. rewrite E1 in H2. cbn [negb andb] in H2.
           rewrite Eg in H2. discriminate.
Qed.

(** C8.  Hook failures.  When the registration of the foreground hook
    fails, the process is ended by [log.Fatalf] right after that call; when
    the registration of the create/destroy hook fails, right after the two
    calls; in both cases the message loop is never entered.  When the loop
    is left, both hooks are unhooked, and a failed unhook adds a logged
    warning and nothing else: whatever [UnhookWinEvent] answers, the
    goroutine stands as it would otherwise. *)
Theorem hook_failures (os : WatcherOS) :
  let hookForeground :=
    fst (SetWinEventHook os eventSystemForeground eventSystemForeground) in
  let hookCreate :=
    fst (SetWinEventHook os eventObjectCreate eventObjectDestroy) in
  (hookForeground = 0 ->
   StartEventWatcher os =
   (ProcessExited,
    [CallSetWinEventHook eventSystemForeground eventSystemForeground;
     LogFatalf "Fatal: Could not set foreground event hook: %v"]))
  /\ (hookForeground <> 0 -> hookCreate = 0 ->
      StartEventWatcher os =
      (ProcessExited,
       [CallSetWinEventHook eventSystemForeground eventSystemForeground;
        CallSetWinEventHook eventObjectCreate eventObjectDestroy;
        LogFatalf "Fatal: Could not set create/destroy event hook: %v"]))
  /\ (hookForeground <> 0 -> hookCreate <> 0 ->
      forall t, messageLoop (pump os) = (Some true, t) ->
      StartEventWatcher os =
      (Returned,
       [CallSetWinEventHook eventSystemForeground eventSystemForeground;
        CallSetWinEventHook eventObjectCreate eventObjectDestroy]
       ++ t
       ++ unhook os hookCreate
            "Warning: Failed to unhook create/destroy event hook: %v"
       ++ unhook os hookForeground
            "Warning: Failed to unhook foreground event hook: %v"))
  /\ (forall hook format,
        unhook os hook format =
        if fst (UnhookWinEvent os hook) =? 0
        then [CallUnhookWinEvent hook; LogPrintf format]
        else [CallUnhookWinEvent hook])
  /\ (forall os' : WatcherOS,
        SetWinEventHook os' = SetWinEventHook os ->
        pump os' = pump os ->
        fst (StartEventWatcher os') = fst (StartEventWatcher os)).
Proof.
  cbv zeta. unfold StartEventWatcher.
  split; [|split; [|split; [|split]]].
  - intros H.
    destruct (SetWinEventHook os eventSystemForeground eventSystemForeground)
      as [h e]. cbn [fst] in H. subst h. reflexivity.
  - intros H1 H2.
    destruct (SetWinEventHook os eventSystemForeground eventSystemForeground)
      as [h e]. cbn [fst] in H1. apply Z.eqb_neq in H1. rewrite H1.
    destruct (SetWinEventHook os eventObjectCreate eventObjectDestroy)
      as [h' e']. cbn [fst] in H2. subst h'. reflexivity.
  - intros H1 H2 t Ht.
    destruct (SetWinEventHook os eventSystemForeground eventSystemForeground)
      as [h e]. cbn [fst] in *. apply Z.eqb_neq in H1. rewrite H1.
    destruct (SetWinEventHook os eventObjectCreate eventObjectDestroy)
      as [h' e']. cbn [fst] in *. apply Z.eqb_neq in H2. rewrite H2.
    rewrite Ht. reflexivity.
  - intros hook format. unfold unhook.
    destruct (fst (UnhookWinEvent os hook) =? 0); reflexivity.
  - intros os' Hs Hp. rewrite Hs, Hp.
    destruct (SetWinEventHook os eventSystemForeground eventSystemForeground)
      as [h e].
    destruct (h =? 0); [reflexivity|].
    destruct (SetWinEventHook os eventObjectCreate eventObjectDestroy)
      as [h' e'].
    destruct (h' =? 0); [reflexivity|].
    destruct (messageLoop (pump os)) as [[[|]|] t]; reflexivity.
Qed.

Lemma int32_quit (m : pumped) :
  is_quit m = true -> int32 (GetMessageW_ret m) = 0.
Proof.
  unfold is_quit. intros H. apply Z.eqb_eq in H. rewrite H. reflexivity.
Qed.

(** C9, as amended.  The loop of the goroutine is left exactly when
    [GetMessageW] returns a value that is -1 as an [int32], all the messages
    before it having been translated and dispatched without a non-zero
    errno; the goroutine then returns.  Every other message, the quit
    message (return value 0) included, is translated and dispatched and the
    loop goes on, unless one of these two calls leaves a non-zero errno, in
    which case [log.Fatalf] ends the process. *)
Theorem loop_left_on_error_return (os : WatcherOS) :
  (fst (messageLoop (pump os)) = Some true <->
   exists pre m post,
     pump os = pre ++ m :: post
     /\ int32 (GetMessageW_ret m) = -1
     /\ forallb goes_on pre = true)
  /\ (fst (StartEventWatcher os) = Returned <->
      fst (SetWinEventHook os eventSystemForeground eventSystemForeground) <> 0
      /\ fst (SetWinEventHook os eventObjectCreate eventObjectDestroy) <> 0
      /\ fst (messageLoop (pump os)) = Some true)
  /\ (forall m rest,
        goes_on m = true ->
        messageLoop (m :: rest) =
        (fst (messageLoop rest),
         [CallGetMessageW; CallTranslateMessage; CallDispatchMessageW]
           ++ snd (messageLoop rest)))
  /\ (forall m,
        is_quit m = true ->
        goes_on m = negb (errno_nonzero (TranslateMessage_err m))
                    && negb (errno_nonzero (DispatchMessageW_err m)))
  /\ (forall m rest,
        int32 (GetMessageW_ret m) <> -1 ->
        errno_nonzero (TranslateMessage_err m)
        || errno_nonzero (DispatchMessageW_err m) = true ->
        fst (messageLoop (m :: rest)) = Some false).
Proof.
  split; [apply messageLoop_left|].
  split.
  { unfold StartEventWatcher.
    destruct (SetWinEventHook os eventSystemForeground eventSystemForeground)
      as [h e].
    destruct (SetWinEventHook os eventObjectCreate eventObjectDestroy)
      as [h' e']. cbn [fst].
    destruct (Z.eqb_spec h 0) as [->|Hh].
    { split; [discriminate | intros [H _]; contradiction]. }
    destruct (Z.eqb_spec h' 0) as [->|Hh'].
    { split; [discriminate | intros [_ [H _]]; contradiction]. }
    destruct (messageLoop (pump os)) as [[[|]|] t]; cbn [fst];
      (split; [intros H; try discriminate; auto | intros [_ [_ H]];
               try discriminate; reflexivity]). }
  split; [apply messageLoop_goes_on|].
  split.
  { intros m H. unfold goes_on. rewrite (int32_quit m H). reflexivity. }
  intros m rest H1 H2. cbn [messageLoop].
  apply Z.eqb_neq in H1. rewrite H1.
  destruct (errno_nonzero (TranslateMessage_err m)); [reflexivity|].
  destruct (errno_nonzero (DispatchMessageW_err m)); [reflexivity|].
  discriminate.
Qed.

(** C9, as stated, fails: the quit message does not end the loop of the
    source, and an error return ends it without any quit message. *)
Lemma quit_message_does_not_end_loop :
  fst (messageLoop [message 0]) = None
  /\ spec_messageLoop [message 0] = Some true
  /\ fst (messageLoop [message 0xFFFFFFFF]) = Some true
  /\ spec_messageLoop [message 0xFFFFFFFF] = None
  /\ ~ (forall msgs, fst (messageLoop msgs) = spec_messageLoop msgs).
Proof.
  repeat split; try reflexivity.
  intros H. specialize (H [message 0]). discriminate.
Qed.

(** ** The claims on concrete desktops *)

(** C3.  The visible-window strategy loses a hit on the empty keyword.
    With the keywords ["spotify"] and [""], no foreground window and no
    process snapshot, and two visible windows titled "Notepad" and
    "Spotify Premium", the first window is a hit (its title contains the
    keyword [""]) and the enumeration stops there; but the strategy then
    returns the empty string with [false], where the claim has it return
    the keyword found, as the foreground strategy does for the same
    window. *)
Theorem empty_keyword_hit_is_lost :
  window_hit ascii_only (simulate desk_background) ["spotify"; ""] 21
  = Some ""
  /\ isWindowActive ascii_only (simulate desk_background) ["spotify"; ""]
     = (Ok ("", false),
        [CallEnumWindows; CallIsWindowVisible 21;
         CallGetWindowTextLengthW 21; CallGetWindowTextW 21 8;
         LogPrintf "Warning: EnumWindows call failed with an error: %v"])
  /\ result (FirstActiveTarget ascii_only sample_Base
               (simulate desk_background) range_in_order
               targets_empty_keyword)
     = Ok ("", false)
  /\ result (getForegroundTarget ascii_only sample_Base
               (simulate desk_notepad) ["spotify"; ""])
     = Ok ("", true).
Proof. repeat split; vm_compute; reflexivity. Qed.

Lemma targets_browser_editor_keys (k : string) :
  is_Some (targets_browser_editor !! k) -> k = "chrome" \/ k = "code".
Proof.
  unfold targets_browser_editor. intros H.
  destruct (decide (k = "chrome")) as [|Hn1]; [left; assumption|].
  destruct (decide (k = "code")) as [|Hn2]; [right; assumption|].
  rewrite lookup_insert_ne, lookup_insert_ne, lookup_empty in H by congruence.
  destruct H as [v H]. discriminate.
Qed.

Lemma foreground_title_wins_witness :
  FirstActiveTarget ascii_only sample_Base (simulate desk_editor)
    range_reversed targets_browser_editor
  = (Ok ("code", true),
     [CallGetForegroundWindow; CallGetWindowTextLengthW 11;
      CallGetWindowTextW 11 32])
  /\ Forall (fun e => lower_priority_call e = false)
       (trace (FirstActiveTarget ascii_only sample_Base (simulate desk_editor)
                 range_reversed targets_browser_editor)).
Proof.
  apply (foreground_title_wins ascii_only sample_Base (simulate desk_editor)
           range_reversed targets_browser_editor "code").
  - discriminate.
  - vm_compute. discriminate.
  - intros k' Hk'. destruct (targets_browser_editor_keys k' Hk') as [-> | ->].
    + split; [|discriminate]. intros H. apply Contains_correct in H.
      vm_compute in H. discriminate.
    + split; [reflexivity|]. intros _. apply Contains_correct.
      vm_compute. reflexivity.
  - exists "Editor". vm_compute. reflexivity.
Defined.

Lemma process_handle_released_witness :
  exists before log,
    trace (getForegroundTarget ascii_only sample_Base (simulate desk_untitled)
             ["code"])
    = before ++ CallCloseHandle 4103 :: log
    /\ CallOpenProcess 1040 7 4103 ∈ before
    /\ Forall (fun e => exists f, e = LogPrintf f) log.
Proof.
  apply (proj2 (proj2 (proj2
           (process_handle_released ascii_only sample_Base
              (simulate desk_untitled) ["code"])))).
  - vm_compute. do 3 right. left.
  - discriminate.
Defined.

Lemma getWindowText_spec_witness :
  result (getWindowText (simulate desk_editor) 12) = Ok "Spotify Premium".
Proof.
  apply (proj2 (proj2 (proj2 (proj2 (getWindowText_spec (simulate desk_editor) 12))))
           desk_editor (window 12 true "Spotify Premium" 8)).
  - reflexivity.
  - reflexivity.
  - vm_compute. reflexivity.
Defined.

Lemma no_target_not_found_witness :
  result (FirstActiveTarget ascii_only sample_Base (simulate desk_editor)
            range_in_order ∅) = Ok ("", false)
  /\ result (FirstActiveTarget ascii_only sample_Base (simulate desk_background)
               range_in_order targets_browser) = Ok ("", false).
Proof.
  split.
  - apply no_target_not_found. left. reflexivity.
  - apply no_target_not_found. right. split; [reflexivity|]. split.
    + intros p k Hp. vm_compute in Hp. inversion Hp.
    + intros hwnd k Hh _ Hk.
      assert (Hkey : k = "chrome").
      { unfold targets_browser in Hk.
        destruct (decide (k = "chrome")) as [|Hn]; [assumption|].
        rewrite lookup_singleton_ne in Hk by congruence.
        destruct Hk as [v Hv]. discriminate. }
      subst k. intros Hs. apply Contains_correct in Hs.
      cbn [simulate EnumWindows_windows desk_background map d_windows] in Hh.
      apply elem_of_cons in Hh as [-> | Hh];
        [vm_compute in Hs; discriminate|].
      apply list_elem_of_singleton in Hh. subst hwnd.
      vm_compute in Hs. discriminate.
Defined.

Lemma failures_yield_no_match_witness :
  result (getForegroundTarget ascii_only sample_Base (simulate desk_editor)
            (keywords_of range_in_order targets_browser))
  = Ok ("", false)
  /\ result (FirstActiveTarget ascii_only sample_Base (simulate desk_editor)
               range_in_order targets_browser)
     = result (afterForeground ascii_only (simulate desk_editor)
                 (keywords_of range_in_order targets_browser)).
Proof.
  apply (proj1 (proj2
           (failures_yield_no_match ascii_only sample_Base
              (simulate desk_editor) range_in_order targets_browser))).
  right. split; [vm_compute; reflexivity|]. left. reflexivity.
Defined.

Lemma hook_failures_witness :
  StartEventWatcher (watcher_os 0 2 1 [message 5]) =
  (ProcessExited,
   [CallSetWinEventHook eventSystemForeground eventSystemForeground;
    LogFatalf "Fatal: Could not set foreground event hook: %v"]).
Proof.
  apply (proj1 (hook_failures (watcher_os 0 2 1 [message 5]))).
  reflexivity.
Defined.

Lemma loop_left_on_error_return_witness :
  messageLoop (message 0 :: [message 0xFFFFFFFF]) =
  (fst (messageLoop [message 0xFFFFFFFF]),
   [CallGetMessageW; CallTranslateMessage; CallDispatchMessageW]
     ++ snd (messageLoop [message 0xFFFFFFFF])).
Proof.
  apply (proj1 (proj2 (proj2
           (loop_left_on_error_return (watcher_os 1 2 1 [])))) (message 0)).
  reflexivity.
Defined.

(** C1, as stated, fails for a foreground window without a title: the
    empty title contains exactly one registered keyword, the empty one, but
    the title test is skipped, the process list and the windows are
    consulted, and nothing is found. *)
Lemma untitled_foreground_falls_through :
  GetForegroundWindow (simulate desk_blank) <> 0
  /\ is_Some (targets_default !! "")
  /\ (forall k', is_Some (targets_default !! k') ->
        (substring_of k'
           (ToLower ascii_only
              (windowText (simulate desk_blank)
                 (GetForegroundWindow (simulate desk_blank))))
         <-> k' = ""))
  /\ FirstActiveTarget ascii_only sample_Base (simulate desk_blank)
       range_in_order targets_default
     = (Ok ("", false),
        [CallGetForegroundWindow; CallGetWindowTextLengthW 11;
         CallGetWindowThreadProcessId 11; CallProcesses; CallEnumWindows;
         CallIsWindowVisible 11; CallGetWindowTextLengthW 11]).
Proof.
  split; [discriminate|].
  split; [exists "Default"; reflexivity|].
  split; [|vm_compute; reflexivity].
  intros k' Hk'.
  assert (Hkey : k' = "").
  { unfold targets_default in Hk'.
    destruct (decide (k' = "")) as [|Hn]; [assumption|].
    rewrite lookup_singleton_ne in Hk' by congruence.
    destruct Hk' as [v Hv]. discriminate. }
  subst k'. split; [reflexivity|]. intros _. apply Contains_correct.
  vm_compute. reflexivity.
Qed.

(** ** Further properties of the event watcher *)

Lemma messageLoop_no_unhook (msgs : list pumped) :
  Forall (fun e => is_unhook e = false) (snd (messageLoop msgs)).
Proof.
  induction msgs as [|m rest IH]; [repeat constructor|].
  cbn [messageLoop].
  destruct (int32 (GetMessageW_ret m) =? -1); [repeat constructor|].
  destruct (errno_nonzero (TranslateMessage_err m)); [repeat constructor|].
  destruct (errno_nonzero (DispatchMessageW_err m)); [repeat constructor|].
  destruct (messageLoop rest) as [r t]. cbn [snd] in *.
  repeat (constructor; [reflexivity|]). exact IH.
Qed.

(** X12.  Hooks are released on return only.  As long as the goroutine
    has not returned (it is in the loop, or [log.Fatalf] ended the process)
    it has made no call to [UnhookWinEvent]; when it returns, its last calls
    are the unhook of the create/destroy hook and then the unhook of the
    foreground hook, each with its warning if it failed, and it made no
    other call to [UnhookWinEvent]. *)
Theorem hooks_released_on_return_only (os : WatcherOS) :
  let hookForeground :=
    fst (SetWinEventHook os eventSystemForeground eventSystemForeground) in
  let hookCreate :=
    fst (SetWinEventHook os eventObjectCreate eventObjectDestroy) in
  (fst (StartEventWatcher os) <> Returned ->
   Forall (fun e => is_unhook e = false) (snd (StartEventWatcher os)))
  /\ (fst (StartEventWatcher os) = Returned ->
      exists t0,
        snd (StartEventWatcher os) =
        t0
        ++ unhook os hookCreate
             "Warning: Failed to unhook create/destroy event hook: %v"
        ++ unhook os hookForeground
             "Warning: Failed to unhook foreground event hook: %v"
        /\ Forall (fun e => is_unhook e = false) t0).
Proof.
  cbv zeta. unfold StartEventWatcher.
  destruct (SetWinEventHook os eventSystemForeground eventSystemForeground)
    as [h e].
  destruct (SetWinEventHook os eventObjectCreate eventObjectDestroy)
    as [h' e']. cbn [fst].
  pose proof (messageLoop_no_unhook (pump os)) as Hl.
  destruct (h =? 0).
  { split; [intros _; repeat constructor | discriminate]. }
  destruct (h' =? 0).
  { split; [intros _; repeat constructor | discriminate]. }
  destruct (messageLoop (pump os)) as [[[|]|] t]; cbn [fst snd] in *.
  - split; [intros H; contradiction|]. intros _.
    exists ([CallSetWinEventHook eventSystemForeground eventSystemForeground;
             CallSetWinEventHook eventObjectCreate eventObjectDestroy] ++ t).
    split; [rewrite <- !app_assoc; reflexivity|].
    repeat (constructor; [reflexivity|]). exact Hl.
  - split; [|discriminate]. intros _.
    repeat (constructor; [reflexivity|]). exact Hl.
  - split; [|discriminate]. intros _.
    repeat (constructor; [reflexivity|]). exact Hl.
Qed.

Lemma int32_minus_one (x : Z) :
  int32 x = -1 <-> x mod 2 ^ 32 = 2 ^ 32 - 1.
Proof.
  unfold int32. pose proof (Z.mod_pos_bound x (2 ^ 32) ltac:(lia)) as Hb.
  destruct (Z.ltb_spec (x mod 2 ^ 32) (2 ^ 31)); lia.
Qed.

(** X13.  The test that leaves the loop reads the low 32 bits.  The loop
    is left at a message, with no further call, exactly when the low 32
    bits of the value [GetMessageW] returned are all ones; the upper bits
    of the [uintptr] and the errors of the other calls play no part. *)
Theorem loop_break_reads_low_32_bits (m : pumped) (rest : list pumped) :
  messageLoop (m :: rest) = (Some true, [CallGetMessageW])
  <-> GetMessageW_ret m mod 2 ^ 32 = 2 ^ 32 - 1.
Proof.
  rewrite <- int32_minus_one. cbn [messageLoop].
  destruct (Z.eqb_spec (int32 (GetMessageW_ret m)) (-1)) as [E|E].
  - split; [intros _; exact E | reflexivity].
  - split; [|contradiction].
    destruct (errno_nonzero (TranslateMessage_err m)); [discriminate|].
    destruct (errno_nonzero (DispatchMessageW_err m)); [discriminate|].
    destruct (messageLoop rest). discriminate.
Qed.

(** ** The further properties on concrete desktops *)

Lemma process_match_precedes_windows_witness :
  exists k' p',
    FirstActiveTarget ascii_only sample_Base (simulate desk_idle)
      range_in_order targets_browser_editor =
    (Ok (k', true),
     trace (getForegroundTarget ascii_only sample_Base (simulate desk_idle)
              (keywords_of range_in_order targets_browser_editor))
       ++ [CallProcesses])
    /\ is_Some (targets_browser_editor !! k')
    /\ p' ∈ fst (ps_Processes (simulate desk_idle))
    /\ substring_of k' (ToLower ascii_only p').
Proof.
  apply (process_match_precedes_windows ascii_only sample_Base
           (simulate desk_idle) range_in_order targets_browser_editor
           "" "chrome.exe" "chrome").
  - vm_compute. reflexivity.
  - reflexivity.
  - left.
  - exists "Browser". vm_compute. reflexivity.
  - apply Contains_correct. vm_compute. reflexivity.
Defined.

Lemma first_matching_process_decides_witness :
  exists k',
    isProcessActive ascii_only (simulate desk_idle) ["spotify"]
    = (Ok (k', true), [CallProcesses])
    /\ k' ∈ ["spotify"]
    /\ substring_of k' (ToLower ascii_only "Spotify.exe").
Proof.
  apply (first_matching_process_decides ascii_only (simulate desk_idle)
           ["spotify"] ["chrome.exe"] [] "Spotify.exe" "spotify").
  - reflexivity.
  - intros q k' Hq Hk' Hs.
    apply list_elem_of_singleton in Hq. apply list_elem_of_singleton in Hk'.
    subst q k'. apply Contains_correct in Hs. vm_compute in Hs. discriminate.
  - left.
  - apply Contains_correct. vm_compute. reflexivity.
Defined.

Lemma foreground_decides_on_title_alone_witness :
  result (getForegroundTarget ascii_only sample_Base (simulate desk_editor)
            ["chrome"])
  = Ok (if GetForegroundWindow (simulate desk_editor) =? 0 then ("", false)
        else found_or_none
               (matchTitle ascii_only
                  (windowText (simulate desk_editor)
                     (GetForegroundWindow (simulate desk_editor)))
                  ["chrome"]))
  /\ Forall (fun e => process_step_call e = false)
       (trace (getForegroundTarget ascii_only sample_Base
                 (simulate desk_editor) ["chrome"])).
Proof.
  apply (foreground_decides_on_title_alone ascii_only sample_Base
           (simulate desk_editor) ["chrome"]).
  reflexivity.
Defined.

Lemma invisible_window_text_not_read_witness :
  Forall (fun e => text_call_on 31 e = false)
    (trace (isWindowActive ascii_only (simulate desk_idle) ["premium"])).
Proof.
  apply (invisible_window_text_not_read ascii_only (simulate desk_idle)
           ["premium"] 31).
  reflexivity.
Defined.

Lemma iteration_order_keeps_outcome_witness :
  same_outcome
    (FirstActiveTarget ascii_only sample_Base (simulate desk_idle)
       range_in_order targets_browser_editor)
    (FirstActiveTarget ascii_only sample_Base (simulate desk_idle)
       range_reversed targets_browser_editor).
Proof.
  apply (iteration_order_keeps_outcome ascii_only sample_Base
           (simulate desk_idle) range_in_order range_reversed
           targets_browser_editor).
  vm_compute. reflexivity.
Defined.

Lemma not_found_means_no_match_witness :
  (GetForegroundWindow (simulate desk_background) <> 0 ->
   forall k, is_Some (targets_browser !! k) ->
     ~ substring_of k
         (ToLower ascii_only
            (windowText (simulate desk_background)
               (GetForegroundWindow (simulate desk_background)))))
  /\ (is_nil (snd (ps_Processes (simulate desk_background))) = true ->
      forall p k, p ∈ fst (ps_Processes (simulate desk_background)) ->
        is_Some (targets_browser !! k) ->
        ~ substring_of k (ToLower ascii_only p))
  /\ (forall w k, w ∈ EnumWindows_windows (simulate desk_background) ->
        IsWindowVisible (simulate desk_background) w <> 0 ->
        is_Some (targets_browser !! k) ->
        ~ substring_of k
            (ToLower ascii_only (windowText (simulate desk_background) w))).
Proof.
  apply (not_found_means_no_match ascii_only sample_Base
           (simulate desk_background) range_in_order targets_browser "").
  - vm_compute. reflexivity.
  - vm_compute. reflexivity.
Defined.

Lemma upper_case_keyword_never_matches_witness :
  Contains (ToLower ascii_only "Google Chrome") "Chrome" = false
  /\ matchKeyword (ToLower ascii_only "Google Chrome") ["Chrome"]
     <> Some "Chrome".
Proof.
  apply (upper_case_keyword_never_matches ascii_only "Google Chrome" "Chrome"
           ["Chrome"]); reflexivity.
Defined.

Lemma empty_keyword_is_found_witness :
  exists k,
    result (FirstActiveTarget ascii_only sample_Base (simulate desk_notepad)
              range_in_order targets_default) = Ok (k, true).
Proof.
  apply (empty_keyword_is_found ascii_only sample_Base (simulate desk_notepad)
           range_in_order targets_default).
  - exists "Default". vm_compute. reflexivity.
  - left. split; [discriminate | vm_compute; discriminate].
Defined.

Lemma isWindowActive_first_hit_witness :
  isWindowActive ascii_only (simulate desk_idle) ["premium"] =
  (Ok ("premium", true),
   CallEnumWindows :: flat_map (probe (simulate desk_idle)) ([31] ++ [32])
     ++ enumWarning (simulate desk_idle) true).
Proof.
  apply (isWindowActive_first_hit ascii_only (simulate desk_idle) ["premium"]
           [31] [] 32 "premium").
  - reflexivity.
  - intros h Hh. apply list_elem_of_singleton in Hh. subst h.
    vm_compute. reflexivity.
  - vm_compute. reflexivity.
  - discriminate.
Defined.

Lemma hooks_released_on_return_only_witness :
  Forall (fun e => is_unhook e = false)
    (snd (StartEventWatcher (watcher_os 1 2 1 [message 5; message 0]))).
Proof.
  apply (proj1 (hooks_released_on_return_only
                  (watcher_os 1 2 1 [message 5; message 0]))).
  vm_compute. discriminate.
Defined.

Lemma foreground_title_match_witness :
  exists k',
    FirstActiveTarget ascii_only sample_Base (simulate desk_notepad)
      range_in_order targets_empty_keyword =
    (Ok (k', true),
     [CallGetForegroundWindow;
      CallGetWindowTextLengthW (GetForegroundWindow (simulate desk_notepad));
      CallGetWindowTextW (GetForegroundWindow (simulate desk_notepad))
        (GetWindowTextLengthW (simulate desk_notepad)
           (GetForegroundWindow (simulate desk_notepad)) + 1)])
    /\ is_Some (targets_empty_keyword !! k')
    /\ substring_of k'
         (ToLower ascii_only
            (windowText (simulate desk_notepad)
               (GetForegroundWindow (simulate desk_notepad)))).
Proof.
  apply (foreground_title_match ascii_only sample_Base (simulate desk_notepad)
           range_in_order targets_empty_keyword "").
  - discriminate.
  - vm_compute. discriminate.
  - exists "Default". vm_compute. reflexivity.
  - apply Contains_correct. vm_compute. reflexivity.
Defined.

Lemma hit_logs_enumeration_warning_witness :
  exists t,
    trace (isWindowActive ascii_only (simulate desk_idle) ["premium"]) =
    t ++ [LogPrintf "Warning: EnumWindows call failed with an error: %v"].
Proof.
  apply (hit_logs_enumeration_warning ascii_only (simulate desk_idle)
           ["premium"] "premium").
  - vm_compute. reflexivity.
  - reflexivity.
Defined.

(** C4, as stated, fails for a window without a title: the empty title,
    lowered, contains the keyword [""], but a title that is empty is not
    compared with any keyword, and neither the foreground strategy nor the
    visible-window strategy reports a match on it. *)
Lemma empty_title_is_not_compared :
  substring_of ""
    (ToLower ascii_only (windowText (simulate desk_blank) 11))
  /\ matchTitle ascii_only (windowText (simulate desk_blank) 11) [""] = None
  /\ getForegroundTarget ascii_only sample_Base (simulate desk_blank) [""]
     = (Ok ("", false),
        [CallGetForegroundWindow; CallGetWindowTextLengthW 11;
         CallGetWindowThreadProcessId 11])
  /\ isWindowActive ascii_only (simulate desk_blank) [""]
     = (Ok ("", false),
        [CallEnumWindows; CallIsWindowVisible 11;
         CallGetWindowTextLengthW 11]).
Proof.
  split; [apply Contains_correct; vm_compute; reflexivity|].
  repeat split; vm_compute; reflexivity.
Qed.

Lemma keyword_match_is_lowercase_containment_witness :
  (substring_of "chrome" (ToLower ascii_only "Google Chrome") <->
   exists sub, substring_of sub "Google Chrome"
               /\ equal_fold sub "chrome" = true)
  /\ (result (isWindowActive ascii_only (simulate desk_idle) ["premium"])
      = Ok ("premium", true) <->
      visible_window_reports ascii_only (simulate desk_idle) ["premium"]
        "premium").
Proof.
  split.
  - apply (proj1 (proj2 (proj2
             (keyword_match_is_lowercase_containment ascii_only sample_Base)))).
    + reflexivity.
    + reflexivity.
  - apply (proj2 (proj2 (proj2 (proj2 (proj2 (proj2
             (keyword_match_is_lowercase_containment ascii_only sample_Base))))))).
    intros H. apply list_elem_of_singleton in H. discriminate.
Defined.

(** ** The examples of the specification *)

Example example_editor_in_foreground :
  result (FirstActiveTarget ascii_only sample_Base (simulate desk_editor)
            range_in_order targets_browser_editor) = Ok ("code", true).
Proof. vm_compute. reflexivity. Qed.

Example example_browser_process :
  FirstActiveTarget ascii_only sample_Base (simulate desk_idle)
    range_in_order targets_browser_editor
  = (Ok ("chrome", true), [CallGetForegroundWindow; CallProcesses]).
Proof. vm_compute. reflexivity. Qed.

Example example_visible_window :
  FirstActiveTarget ascii_only sample_Base (simulate desk_idle)
    range_in_order targets_premium
  = (Ok ("premium", true),
     [CallGetForegroundWindow; CallProcesses; CallEnumWindows;
      CallIsWindowVisible 31; CallIsWindowVisible 32;
      CallGetWindowTextLengthW 32; CallGetWindowTextW 32 16;
      LogPrintf "Warning: EnumWindows call failed with an error: %v"]).
Proof. vm_compute. reflexivity. Qed.

(** The executable name of the foreground process is tried when the
    [lastErr] of [GetWindowThreadProcessId] is [nil]. *)
Example example_foreground_executable :
  getForegroundTarget ascii_only sample_Base (simulate desk_untitled) ["code"]
  = (Ok ("code", true),
     [CallGetForegroundWindow; CallGetWindowTextLengthW 11;
      CallGetWindowThreadProcessId 11; CallOpenProcess 1040 7 4103;
      CallGetModuleFileNameExW 4103 260; CallCloseHandle 4103]).
Proof. vm_compute. reflexivity. Qed.
